(** * cf_dyndns.py: the Cloudflare dynamic DNS updater

    A shallow embedding of [src/cf_dyndns.py].  The script talks to two
    REST services through [requests]; here the network is an oracle that
    answers a request knowing how many events came before it, every call
    and every sleep is recorded in a trace, every log line in a log, and
    Python exceptions are results of a small state-and-error monad. *)

From Stdlib Require Import ZArith Ascii String List Lia.
From Stdlib Require Import Floats.SpecFloat.
From stdpp Require Import gmap strings list fin_maps.

#[local] Set Warnings "-register-all".
#[local] Open Scope string_scope.
#[local] Open Scope Z_scope.
#[local] Open Scope list_scope.

(** ** Python values *)

(** What [response.json()] can produce, which is also all the script ever
    holds in a variable: [None], [bool], [int], [float], [str], [list] and
    [dict] with [str] keys. *)
Inductive json : Type :=
| JNull
| JBool (b : bool)
| JInt (z : Z)
| JFloat (f : spec_float)
| JStr (s : string)
| JList (l : list json)
| JObj (m : gmap string json).

(** [os.getenv(name)]: a [str], or [None] when the variable is unset. *)
Definition of_env (o : option string) : json :=
  match o with
  | Some s => JStr s
  | None => JNull
  end.

(** Truth value of an object, as taken by [if], [not] and [and]. *)
Definition py_truthy (v : json) : bool :=
  match v with
  | JNull => false
  | JBool b => b
  | JInt z => negb (z =? 0)
  | JFloat (S754_zero _) => false
  | JFloat _ => true
  | JStr s => negb (String.eqb s "")
  | JList l => negb (Nat.eqb (List.length l) 0)
  | JObj m => negb (Nat.eqb (size m) 0)
  end.

(** [current_ip != v] where [current_ip] is a [str] ([response.text]): a
    [str] equals only an equal [str]. *)
Definition str_ne (s : string) (v : json) : bool :=
  match v with
  | JStr t => negb (String.eqb s t)
  | _ => true
  end.

(** ** f-strings, exceptions, log lines *)

(** An f-string is kept as its pieces: literal text, [{v}] and [{str(e)}]. *)
Inductive piece : Type :=
| Lit (s : string)
| Val (v : json)
| StrExc (e : exc)
with exc : Type :=
| Exception_ (msg : list piece)     (* raise Exception(f"...") *)
| RequestException (msg : string)   (* raised inside requests.get / requests.put *)
| JSONDecodeError                   (* response.json() on a body that is not JSON *)
| AttributeError                    (* .get on an object that is not a dict *)
| KeyError
| IndexError
| TypeError
| ValueError
| OverflowError
| OSError (errno : Z).

Inductive Level := INFO | ERROR.

Record LogEntry := { level : Level; message : list piece }.

(** ** Requests, responses, the network *)

Inductive Method := GET | PUT.

Record Request := {
  method : Method;
  url : list piece;
  headers : gmap string (list piece);
  params : gmap string json;
  payload : option json            (* the [json=] keyword of requests.put *)
}.

(** [json_body] is what [response.json()] returns, [None] when it raises. *)
Record Response := {
  status_code : Z;
  text : string;
  json_body : option json
}.

Inductive Reply :=
| ConnectionFailed (msg : string)
| Answer (r : Response).

Inductive Event :=
| Call (r : Request)
| Sleep (secs : Z).

(** The network answers a request knowing how many events came before. *)
Definition Network := nat -> Request -> Reply.

(** ** Module globals and program state *)

Record Globals := {
  CF_API_TOKEN : option string;
  ZONE_ID : option string;
  DNS_RECORD_ID : json;            (* rebound by [main] to what discovery returns *)
  DOMAIN_NAME : option string;
  RECORD_TYPE : string;
  TTL : Z;
  PROXIED : bool;
  CHECK_INTERVAL : Z
}.

(** The platform's clock: asked to sleep for a length, knowing how many
    events came before, it sleeps, or the call raises (as a rule OSError
    with the platform's errno). *)
Definition Clock := nat -> Z -> option exc.

Record State := {
  globals : Globals;
  trace : list Event;
  log : list LogEntry;
  clock : Clock
}.

Definition add_event (e : Event) (s : State) : State :=
  {| globals := globals s; trace := trace s ++ [e]; log := log s; clock := clock s |}.

Definition add_log (l : LogEntry) (s : State) : State :=
  {| globals := globals s; trace := trace s; log := log s ++ [l]; clock := clock s |}.

Definition set_DNS_RECORD_ID (v : json) (s : State) : State :=
  {| globals :=
       {| CF_API_TOKEN := CF_API_TOKEN (globals s);
          ZONE_ID := ZONE_ID (globals s);
          DNS_RECORD_ID := v;
          DOMAIN_NAME := DOMAIN_NAME (globals s);
          RECORD_TYPE := RECORD_TYPE (globals s);
          TTL := TTL (globals s);
          PROXIED := PROXIED (globals s);
          CHECK_INTERVAL := CHECK_INTERVAL (globals s) |};
     trace := trace s;
     log := log s;
     clock := clock s |}.

(** ** The monad: state, network, exceptions *)

Inductive Res (A : Type) : Type :=
| Ok (a : A)
| Raised (e : exc).
Arguments Ok {A} a.
Arguments Raised {A} e.

Definition M (A : Type) : Type := Network -> State -> Res A * State.

Definition ret {A} (a : A) : M A := fun _ s => (Ok a, s).

Definition bind {A B} (m : M A) (k : A -> M B) : M B :=
  fun net s =>
    match m net s with
    | (Ok a, s') => k a net s'
    | (Raised e, s') => (Raised e, s')
    end.

Definition raise {A} (e : exc) : M A := fun _ s => (Raised e, s).

Definition lift {A} (r : Res A) : M A := fun _ s => (r, s).

(** [try: m  except Exception as e: h e] *)
Definition try_except {A} (m : M A) (h : exc -> M A) : M A :=
  fun net s =>
    match m net s with
    | (Ok a, s') => (Ok a, s')
    | (Raised e, s') => h e net s'
    end.

Definition read_globals : M Globals := fun _ s => (Ok (globals s), s).

Declare Scope py_scope.
Delimit Scope py_scope with py.
Notation "x <- m ;; k" := (bind m (fun x => k))
  (at level 100, m at next level, right associativity) : py_scope.
Notation "m ;; k" := (bind m (fun _ => k))
  (at level 100, right associativity) : py_scope.
#[local] Open Scope py_scope.

Definition logger_info (msg : list piece) : M unit :=
  fun _ s => (Ok tt, add_log {| level := INFO; message := msg |} s).

Definition logger_error (msg : list piece) : M unit :=
  fun _ s => (Ok tt, add_log {| level := ERROR; message := msg |} s).

(** One outbound call: recorded, then answered by the network. *)
Definition send (r : Request) : M Response :=
  fun net s =>
    match net (List.length (trace s)) r with
    | ConnectionFailed msg => (Raised (RequestException msg), add_event (Call r) s)
    | Answer resp => (Ok resp, add_event (Call r) s)
    end.

Definition requests_get (u : list piece) (h : gmap string (list piece))
    (p : gmap string json) : M Response :=
  send {| method := GET; url := u; headers := h; params := p; payload := None |}.

Definition requests_put (u : list piece) (h : gmap string (list piece))
    (data : json) : M Response :=
  send {| method := PUT; url := u; headers := h; params := ∅; payload := Some data |}.

Definition response_json (r : Response) : Res json :=
  match json_body r with
  | Some v => Ok v
  | None => Raised JSONDecodeError
  end.

(** The largest whole number of seconds, in absolute value, whose count of
    nanoseconds fits in 64 bits: 9223372036 * 10^9 <= 2^63 - 1. *)
Definition sleep_limit : Z := 9223372036.

(** [time.sleep(secs)] with an [int].  The length is first converted to a
    64-bit count of nanoseconds, which raises OverflowError beyond
    [sleep_limit] on either side; a negative length is then refused with
    ValueError; at last the platform is asked to sleep and may refuse. *)
Definition time_sleep (secs : Z) : M unit :=
  fun _ s =>
    if (secs <? - sleep_limit) || (sleep_limit <? secs) then (Raised OverflowError, s)
    else if secs <? 0 then (Raised ValueError, s)
    else
      match clock s (List.length (trace s)) secs with
      | Some e => (Raised e, s)
      | None => (Ok tt, add_event (Sleep secs) s)
      end.

(** ** Operations of Python objects used by the script *)

(** [o.get(k, default)] *)
Definition py_get (o : json) (k : string) (default : json) : Res json :=
  match o with
  | JObj m => Ok (match m !! k with Some v => v | None => default end)
  | _ => Raised AttributeError
  end.

(** [o[k]] with a [str] key *)
Definition py_item (o : json) (k : string) : Res json :=
  match o with
  | JObj m => match m !! k with Some v => Ok v | None => Raised KeyError end
  | _ => Raised TypeError
  end.

(** [o[0]] *)
Definition py_first (o : json) : Res json :=
  match o with
  | JList l => match l with x :: _ => Ok x | [] => Raised IndexError end
  | JStr s => match s with
              | String c _ => Ok (JStr (String c EmptyString))
              | EmptyString => Raised IndexError
              end
  | JObj _ => Raised KeyError
  | _ => Raised TypeError
  end.

(** [len(o)] *)
Definition py_len (o : json) : Res nat :=
  match o with
  | JStr s => Ok (String.length s)
  | JList l => Ok (List.length l)
  | JObj m => Ok (size m)
  | _ => Raised TypeError
  end.

Definition res_bind {A B} (r : Res A) (k : A -> Res B) : Res B :=
  match r with
  | Ok a => k a
  | Raised e => Raised e
  end.

(** ** The script *)

Definition ipify_url : list piece := [Lit "https://api.ipify.org"].

(** f"https://api.cloudflare.com/client/v4/zones/{zone_id}/dns_records" *)
Definition dns_records_url (zone_id : json) : list piece :=
  [Lit "https://api.cloudflare.com/client/v4/zones/"; Val zone_id; Lit "/dns_records"].

(** f"https://api.cloudflare.com/client/v4/zones/{ZONE_ID}/dns_records/{DNS_RECORD_ID}" *)
Definition dns_record_url (g : Globals) : list piece :=
  [Lit "https://api.cloudflare.com/client/v4/zones/"; Val (of_env (ZONE_ID g));
   Lit "/dns_records/"; Val (DNS_RECORD_ID g)].

Definition auth_headers (g : Globals) : gmap string (list piece) :=
  {[ "Authorization" := [Lit "Bearer "; Val (of_env (CF_API_TOKEN g))];
     "Content-Type" := [Lit "application/json"] ]}.

Definition get_current_ip : M string :=
  try_except
    (response <- requests_get ipify_url ∅ ∅;;
     if status_code response =? 200 then ret (text response)
     else raise (Exception_ [Lit "Failed to get IP: "; Val (JInt (status_code response))]))
    (fun e =>
       logger_error [Lit "Error getting current IP: "; StrExc e];;
       raise e).

Definition get_dns_record_id (zone_id domain_name record_type : json) : M json :=
  g <- read_globals;;
  let url := dns_records_url zone_id in
  let headers := auth_headers g in
  let params : gmap string json := {[ "name" := domain_name; "type" := record_type ]} in
  try_except
    (response <- requests_get url headers params;;
     if status_code response =? 200 then
       result <- lift (response_json response);;
       success <- lift (py_get result "success" JNull);;
       found <-
         (if py_truthy success then
            res <- lift (py_get result "result" JNull);;
            if py_truthy res then
              items <- lift (py_item result "result");;
              n <- lift (py_len items);;
              ret (0 <? n)%nat
            else ret false
          else ret false);;
       if found then
         items <- lift (py_item result "result");;
         first <- lift (py_first items);;
         record_id <- lift (py_item first "id");;
         logger_info [Lit "Found DNS record ID for "; Val domain_name; Lit ": "; Val record_id];;
         ret record_id
       else
         logger_error [Lit "No DNS records found for "; Val domain_name;
                       Lit " of type "; Val record_type];;
         ret JNull
     else
       logger_error [Lit "Failed to get DNS records: "; Val (JInt (status_code response));
                     Lit " - "; Val (JStr (text response))];;
       ret JNull)
    (fun e =>
       logger_error [Lit "Error getting DNS record ID: "; StrExc e];;
       ret JNull).

Definition get_cloudflare_dns_record : M json :=
  g <- read_globals;;
  let url := dns_record_url g in
  let headers := auth_headers g in
  try_except
    (response <- requests_get url headers ∅;;
     if status_code response =? 200 then lift (response_json response)
     else
       logger_error [Lit "Failed to get DNS record: "; Val (JInt (status_code response));
                     Lit " - "; Val (JStr (text response))];;
       ret JNull)
    (fun e =>
       logger_error [Lit "Error getting Cloudflare DNS record: "; StrExc e];;
       ret JNull).

(** The [data] dict of [update_cloudflare_dns_record]. *)
Definition update_data (g : Globals) (current_ip : string) : gmap string json :=
  {[ "type" := JStr (RECORD_TYPE g);
     "name" := of_env (DOMAIN_NAME g);
     "content" := JStr current_ip;
     "ttl" := JInt (TTL g);
     "proxied" := JBool (PROXIED g) ]}.

Definition update_cloudflare_dns_record (current_ip : string) : M bool :=
  g <- read_globals;;
  let url := dns_record_url g in
  let headers := auth_headers g in
  let data := JObj (update_data g current_ip) in
  try_except
    (response <- requests_put url headers data;;
     if status_code response =? 200 then
       result <- lift (response_json response);;
       success <- lift (py_get result "success" JNull);;
       if py_truthy success then
         logger_info [Lit "Successfully updated DNS record to "; Val (JStr current_ip)];;
         ret true
       else
         logger_error [Lit "API returned success=false: "; Val result];;
         ret false
     else
       logger_error [Lit "Failed to update DNS record: "; Val (JInt (status_code response));
                     Lit " - "; Val (JStr (text response))];;
       ret false)
    (fun e =>
       logger_error [Lit "Error updating Cloudflare DNS record: "; StrExc e];;
       ret false).

(** [dns_record.get("result", {}).get("content")] *)
Definition extract_content (dns_record : json) : Res json :=
  res_bind (py_get dns_record "result" (JObj ∅))
           (fun result => py_get result "content" JNull).

(** Lines 166-184 of [check_and_update]: what the pass does with the
    record it has read. *)
Definition compare_and_update (current_ip : string) (dns_record : json) : M unit :=
  if negb (py_truthy dns_record) then
    logger_error [Lit "Failed to retrieve DNS record. Skipping update."]
  else
    cf_ip <- lift (extract_content dns_record);;
    logger_info [Lit "Current Cloudflare DNS record IP: "; Val cf_ip];;
    if str_ne current_ip cf_ip then
      logger_info [Lit "IP address has changed from "; Val cf_ip; Lit " to ";
                   Val (JStr current_ip); Lit ". Updating..."];;
      updated <- update_cloudflare_dns_record current_ip;;
      if updated then logger_info [Lit "DNS record updated successfully"]
      else logger_error [Lit "Failed to update DNS record"]
    else
      logger_info [Lit "IP address unchanged. No update needed."].

(** The [try] suite of [check_and_update], lines 160-184. *)
Definition check_and_update_body : M unit :=
  current_ip <- get_current_ip;;
  logger_info [Lit "Current public IP: "; Val (JStr current_ip)];;
  dns_record <- get_cloudflare_dns_record;;
  compare_and_update current_ip dns_record.

Definition check_and_update : M unit :=
  try_except check_and_update_body
    (fun e => logger_error [Lit "Error in check_and_update: "; StrExc e]).

(** [os.getenv(var)] for the two names [main] re-reads. *)
Definition getenv (g : Globals) (var : string) : option string :=
  if String.eqb var "CLOUDFLARE_API_TOKEN" then CF_API_TOKEN g
  else if String.eqb var "ZONE_ID" then ZONE_ID g
  else None.

(** Where [main] stands when it is observed: it has returned, or it is
    still inside [while True]. *)
Inductive Status := Exited | Looping.

(** [while True: check_and_update(); time.sleep(CHECK_INTERVAL)], followed
    for [ticks] iterations.  The operator's interrupt is left out:
    KeyboardInterrupt is not an [Exception] and is not an event of this
    model. *)
Fixpoint reconcile_loop (ticks : nat) : M Status :=
  match ticks with
  | O => ret Looping
  | S n =>
      check_and_update;;
      g <- read_globals;;
      time_sleep (CHECK_INTERVAL g);;
      reconcile_loop n
  end.

(** Lines 232-241 of [main]: announce the interval, then loop; an exception
    that leaves the loop is logged and [main] returns. *)
Definition main_loop (ticks : nat) : M Status :=
  g <- read_globals;;
  logger_info [Lit "Will check for IP changes every "; Val (JInt (CHECK_INTERVAL g));
               Lit " seconds"];;
  try_except (reconcile_loop ticks)
    (fun e =>
       logger_error [Lit "Unexpected error: "; StrExc e];;
       ret Exited).

(** [global DNS_RECORD_ID; DNS_RECORD_ID = v] *)
Definition assign_DNS_RECORD_ID (v : json) : M unit :=
  fun _ s => (Ok tt, set_DNS_RECORD_ID v s).

Definition main (ticks : nat) : M Status :=
  logger_info [Lit "Starting Cloudflare Dynamic DNS updater"];;
  g <- read_globals;;
  let missing_vars :=
    List.filter (fun var => negb (py_truthy (of_env (getenv g var))))
                ["CLOUDFLARE_API_TOKEN"; "ZONE_ID"] in
  if negb (Nat.eqb (List.length missing_vars) 0) then
    logger_error [Lit "Missing required environment variables: ";
                  Val (JStr (String.concat ", " missing_vars))];;
    logger_error [Lit "Please check your .env file and try again"];;
    ret Exited
  else if negb (py_truthy (DNS_RECORD_ID g)) then
    if negb (py_truthy (of_env (DOMAIN_NAME g))) then
      logger_error
        [Lit "Both DNS_RECORD_ID and DOMAIN_NAME are missing. At least one is required."];;
      ret Exited
    else
      logger_info
        [Lit "DNS_RECORD_ID not provided. Attempting to find it automatically for ";
         Val (of_env (DOMAIN_NAME g)); Lit "..."];;
      record_id <-
        get_dns_record_id (of_env (ZONE_ID g)) (of_env (DOMAIN_NAME g))
                          (JStr (RECORD_TYPE g));;
      assign_DNS_RECORD_ID record_id;;
      if negb (py_truthy record_id) then
        logger_error [Lit "Could not find DNS record ID for "; Val (of_env (DOMAIN_NAME g));
                      Lit ". Please provide it manually in .env file."];;
        ret Exited
      else
        logger_info [Lit "Using DNS record ID: "; Val record_id];;
        main_loop ticks
  else main_loop ticks.

(** * Vocabulary of the properties *)

(** ** Observing a run *)

Definition run_result {A} (m : M A) (net : Network) (s : State) : Res A := fst (m net s).

Definition run_state {A} (m : M A) (net : Network) (s : State) : State := snd (m net s).

(** The events a computation adds to the trace. *)
Definition events_of {A} (m : M A) (net : Network) (s : State) : list Event :=
  drop (List.length (trace s)) (trace (run_state m net s)).

(** The events of one pass started in [s]. *)
Definition pass_events (net : Network) (s : State) : list Event :=
  events_of check_and_update net s.

(** The log lines a computation adds. *)
Definition logged_by {A} (m : M A) (net : Network) (s : State) : list LogEntry :=
  drop (List.length (log s)) (log (run_state m net s)).

(** The state [s] after more events and log lines. *)
Definition extend (s : State) (evs : list Event) (ls : list LogEntry) : State :=
  {| globals := globals s; trace := trace s ++ evs; log := log s ++ ls; clock := clock s |}.

(** From [s] on, [time.sleep(secs)] returns: Python accepts the length and
    the platform sleeps whenever it is asked. *)
Definition sleep_returns (s : State) (secs : Z) : Prop :=
  0 ≤ secs ≤ sleep_limit ∧
  ∀ k, (List.length (trace s) ≤ k)%nat → clock s k secs = None.

Definition info (msg : list piece) : LogEntry := {| level := INFO; message := msg |}.

Definition error (msg : list piece) : LogEntry := {| level := ERROR; message := msg |}.

(** The handler of [check_and_update]. *)
Definition pass_handler (e : exc) : M unit :=
  logger_error [Lit "Error in check_and_update: "; StrExc e].

(** ** The requests and their replies *)

(** The four requests the script builds. *)
Definition echo_request : Request :=
  {| method := GET; url := ipify_url; headers := ∅; params := ∅; payload := None |}.

Definition list_request (g : Globals) (zone_id domain_name record_type : json) : Request :=
  {| method := GET; url := dns_records_url zone_id; headers := auth_headers g;
     params := {[ "name" := domain_name; "type" := record_type ]}; payload := None |}.

Definition read_request (g : Globals) : Request :=
  {| method := GET; url := dns_record_url g; headers := auth_headers g;
     params := ∅; payload := None |}.

Definition update_request (g : Globals) (current_ip : string) : Request :=
  {| method := PUT; url := dns_record_url g; headers := auth_headers g;
     params := ∅; payload := Some (JObj (update_data g current_ip)) |}.

(** The discovery call [main] makes. *)
Definition discovery_request (g : Globals) : Request :=
  list_request g (of_env (ZONE_ID g)) (of_env (DOMAIN_NAME g)) (JStr (RECORD_TYPE g)).

(** Does the request address a single record, /zones/{..}/dns_records/{..}? *)
Definition targets_record (r : Request) : bool :=
  match url r with
  | [Lit a; Val _; Lit b; Val _] =>
      String.eqb a "https://api.cloudflare.com/client/v4/zones/" && String.eqb b "/dns_records/"
  | _ => false
  end.

Definition is_read (r : Request) : bool :=
  match method r with GET => targets_record r | PUT => false end.

Definition is_update (r : Request) : bool :=
  match method r with PUT => targets_record r | GET => false end.

Definition is_echo (r : Request) : bool :=
  match method r, url r with
  | GET, [Lit a] => String.eqb a "https://api.ipify.org"
  | _, _ => false
  end.

Definition calls (evs : list Event) : list Request :=
  omap (fun e => match e with Call r => Some r | Sleep _ => None end) evs.

Definition read_calls (evs : list Event) : list Request := List.filter is_read (calls evs).

Definition update_calls (evs : list Event) : list Request := List.filter is_update (calls evs).

Definition echo_calls (evs : list Event) : list Request := List.filter is_echo (calls evs).

(** The reply the network gives to [r] when asked in state [s]. *)
Definition reply_at (net : Network) (s : State) (r : Request) : Reply :=
  net (List.length (trace s)) r.

(** The replies to the first, second and third call of a pass started in
    [s]: the IP echo, the record read and the record update. *)
Definition echo_reply (net : Network) (s : State) : Reply :=
  net (List.length (trace s)) echo_request.

Definition read_reply (net : Network) (s : State) : Reply :=
  net (S (List.length (trace s))) (read_request (globals s)).

Definition update_reply (net : Network) (s : State) (current_ip : string) : Reply :=
  net (S (S (List.length (trace s)))) (update_request (globals s) current_ip).

(** A call fails at the HTTP level: transport error, or a status other
    than 200. *)
Definition http_fails (r : Reply) : Prop :=
  match r with
  | ConnectionFailed _ => True
  | Answer resp => status_code resp ≠ 200
  end.

(** The IP echo answers 200 with body [ip]. *)
Definition resolves (r : Reply) (ip : string) : Prop :=
  ∃ resp, r = Answer resp ∧ status_code resp = 200 ∧ text resp = ip.

(** The record read answers 200 with a body that parses to [v]. *)
Definition reads (r : Reply) (v : json) : Prop :=
  ∃ resp, r = Answer resp ∧ status_code resp = 200 ∧ json_body resp = Some v.

(** The read reports an error: transport error, a status other than 200,
    or a body that is not JSON. *)
Definition read_fails (r : Reply) : Prop :=
  match r with
  | ConnectionFailed _ => True
  | Answer resp => status_code resp ≠ 200 ∨ json_body resp = None
  end.

(** The update is refused: transport error, a status other than 200, an
    unreadable body, or a body that reports no success. *)
Definition update_fails (r : Reply) : Prop :=
  match r with
  | ConnectionFailed _ => True
  | Answer resp =>
      status_code resp ≠ 200 ∨ json_body resp = None ∨
      ∃ body, json_body resp = Some (JObj body) ∧
              py_truthy (default JNull (body !! "success")) = false
  end.

(** Both settings [main] insists on are set and not empty. *)
Definition required_present (g : Globals) : bool :=
  py_truthy (of_env (CF_API_TOKEN g)) && py_truthy (of_env (ZONE_ID g)).

(** ** How the script reads an answer *)

(** The provider's answer to an update, as the script reads it. *)
Inductive UpdateOutcome :=
| Accepted                      (* 200 and a truthy "success" *)
| Rejected (result : json)      (* 200 and a dict without a truthy "success" *)
| HttpFailure (status : Z) (body : string)
| Broken (e : exc).             (* transport error or an unusable body *)

Definition update_outcome (r : Reply) : UpdateOutcome :=
  match r with
  | ConnectionFailed msg => Broken (RequestException msg)
  | Answer resp =>
      if status_code resp =? 200 then
        match json_body resp with
        | None => Broken JSONDecodeError
        | Some (JObj m) =>
            if py_truthy (default JNull (m !! "success")) then Accepted
            else Rejected (JObj m)
        | Some _ => Broken AttributeError
        end
      else HttpFailure (status_code resp) (text resp)
  end.

Definition update_log (current_ip : string) (o : UpdateOutcome) : LogEntry :=
  match o with
  | Accepted =>
      {| level := INFO;
         message := [Lit "Successfully updated DNS record to "; Val (JStr current_ip)] |}
  | Rejected result =>
      {| level := ERROR; message := [Lit "API returned success=false: "; Val result] |}
  | HttpFailure status body =>
      {| level := ERROR;
         message := [Lit "Failed to update DNS record: "; Val (JInt status);
                     Lit " - "; Val (JStr body)] |}
  | Broken e =>
      {| level := ERROR;
         message := [Lit "Error updating Cloudflare DNS record: "; StrExc e] |}
  end.

Definition accepted (o : UpdateOutcome) : bool :=
  match o with Accepted => true | _ => false end.

(** The provider's answer to the list call, as the script reads it. *)
Inductive DiscoveryOutcome :=
| Found (record_id : json)
| NoRecords
| ListFailure (status : Z) (body : string)
| ListBroken (e : exc).

(** [result["result"][0]["id"]] once [result["result"]] is truthy and its
    [len] is positive. *)
Definition first_id (items : json) : DiscoveryOutcome :=
  match items with
  | JList (JObj record :: _) =>
      match record !! "id" with
      | Some record_id => Found record_id
      | None => ListBroken KeyError
      end
  | JList _ => ListBroken TypeError
  | JStr _ => ListBroken TypeError
  | JObj _ => ListBroken KeyError
  | _ => ListBroken TypeError
  end.

Definition discovery_outcome (r : Reply) : DiscoveryOutcome :=
  match r with
  | ConnectionFailed msg => ListBroken (RequestException msg)
  | Answer resp =>
      if status_code resp =? 200 then
        match json_body resp with
        | None => ListBroken JSONDecodeError
        | Some (JObj m) =>
            if py_truthy (default JNull (m !! "success"))
               && py_truthy (default JNull (m !! "result"))
            then first_id (default JNull (m !! "result"))
            else NoRecords
        | Some _ => ListBroken AttributeError
        end
      else ListFailure (status_code resp) (text resp)
  end.

Definition discovered (o : DiscoveryOutcome) : json :=
  match o with
  | Found record_id => record_id
  | _ => JNull
  end.

Definition discovery_log (domain_name record_type : json) (o : DiscoveryOutcome) : LogEntry :=
  match o with
  | Found record_id =>
      info [Lit "Found DNS record ID for "; Val domain_name; Lit ": "; Val record_id]
  | NoRecords =>
      error [Lit "No DNS records found for "; Val domain_name; Lit " of type "; Val record_type]
  | ListFailure status body =>
      error [Lit "Failed to get DNS records: "; Val (JInt status); Lit " - "; Val (JStr body)]
  | ListBroken e =>
      error [Lit "Error getting DNS record ID: "; StrExc e]
  end.

(** ** Predicates on record bodies *)

(** An update body leaves the record's other fields as they are. *)
Definition keeps_other_fields (record body : gmap string json) : Prop :=
  ∀ k, k ∈ ["type"; "name"; "ttl"; "proxied"] → body !! k = record !! k.

(** The body has a [result] object with a [content] field. *)
Definition has_result_content (v : json) : bool :=
  match v with
  | JObj m =>
      match m !! "result" with
      | Some (JObj record) => bool_decide (is_Some (record !! "content"))
      | _ => false
      end
  | _ => false
  end.

(** ** Sample configurations and networks *)

Definition sample_globals : Globals :=
  {| CF_API_TOKEN := Some "tok"; ZONE_ID := Some "zone1"; DNS_RECORD_ID := JStr "abc123";
     DOMAIN_NAME := Some "home.example.com"; RECORD_TYPE := "A"; TTL := 3600;
     PROXIED := false; CHECK_INTERVAL := 300 |}.

Definition globals_without_id : Globals :=
  {| CF_API_TOKEN := Some "tok"; ZONE_ID := Some "zone1"; DNS_RECORD_ID := JNull;
     DOMAIN_NAME := Some "x.example.com"; RECORD_TYPE := "A"; TTL := 3600;
     PROXIED := false; CHECK_INTERVAL := 300 |}.

(** Configuration with a record identifier and no domain name. *)
Definition globals_id_only : Globals :=
  {| CF_API_TOKEN := Some "tok"; ZONE_ID := Some "zone1"; DNS_RECORD_ID := JStr "abc123";
     DOMAIN_NAME := None; RECORD_TYPE := "A"; TTL := 3600;
     PROXIED := false; CHECK_INTERVAL := 300 |}.

(** A platform that sleeps whenever asked. *)
Definition always_sleeps : Clock := fun _ _ => None.

(** A platform that refuses every sleep with EINVAL. *)
Definition never_sleeps : Clock := fun _ _ => Some (OSError 22).

Definition start_on (c : Clock) (g : Globals) : State :=
  {| globals := g; trace := []; log := []; clock := c |}.

Definition start (g : Globals) : State := start_on always_sleeps g.

Definition text_response (status : Z) (body : string) : Response :=
  {| status_code := status; text := body; json_body := None |}.

Definition json_response (status : Z) (v : json) : Response :=
  {| status_code := status; text := ""; json_body := Some v |}.

(** A network scripted by the kind of request. *)
Definition scripted (echo read update lst : Reply) : Network :=
  fun _ r =>
    if is_echo r then echo
    else if is_read r then read
    else if is_update r then update
    else lst.

Definition record_body (content : json) : json :=
  JObj {[ "success" := JBool true; "result" := JObj {[ "content" := content ]} ]}.

Definition ok_body : json := JObj {[ "success" := JBool true ]}.

Definition list_body (records : list json) : json :=
  JObj {[ "success" := JBool true; "result" := JList records ]}.

Definition two_records : list json :=
  [JObj {[ "id" := JStr "abc123"; "name" := JStr "x.example.com" ]};
   JObj {[ "id" := JStr "def456"; "name" := JStr "x.example.com" ]}].

(** The record as the provider holds it. *)
Definition published_record : gmap string json :=
  {[ "id" := JStr "abc123"; "type" := JStr "A"; "name" := JStr "home.example.com";
     "content" := JStr "1.2.3.3"; "ttl" := JInt 120; "proxied" := JBool true ]}.

(** What the provider sends with an error: no success, a null result. *)
Definition body_result_null : json :=
  JObj {[ "success" := JBool false; "result" := JNull ]}.

Definition echo_1234 : Reply := Answer (text_response 200 "1.2.3.4").

(** Echo 1.2.3.4, record at 1.2.3.3, update accepted. *)
Definition net_changed : Network :=
  scripted echo_1234 (Answer (json_response 200 (record_body (JStr "1.2.3.3"))))
           (Answer (json_response 200 ok_body)) (ConnectionFailed "unused").

(** Echo 1.2.3.4, record at 1.2.3.4. *)
Definition net_unchanged : Network :=
  scripted echo_1234 (Answer (json_response 200 (record_body (JStr "1.2.3.4"))))
           (Answer (json_response 200 ok_body)) (ConnectionFailed "unused").

(** The echo service answers 503. *)
Definition net_echo_down : Network :=
  scripted (Answer (text_response 503 "Service Unavailable"))
           (Answer (json_response 200 (record_body (JStr "1.2.3.3"))))
           (Answer (json_response 200 ok_body)) (ConnectionFailed "unused").

(** The record read answers 403. *)
Definition net_read_denied : Network :=
  scripted echo_1234 (Answer (text_response 403 "Forbidden"))
           (Answer (json_response 200 ok_body)) (ConnectionFailed "unused").

Definition net_no_match : Network :=
  scripted echo_1234 (Answer (json_response 200 (record_body (JStr "1.2.3.3"))))
           (Answer (json_response 200 ok_body))
           (Answer (json_response 200 (JObj {[ "success" := JBool true; "result" := JList [] ]}))).

Definition net_listing (lst : Reply) : Network :=
  scripted echo_1234 (Answer (json_response 200 (record_body (JStr "1.2.3.3"))))
           (Answer (json_response 200 ok_body)) lst.

Definition net_updating (update : Reply) : Network :=
  scripted echo_1234 (Answer (json_response 200 (record_body (JStr "1.2.3.3"))))
           update (ConnectionFailed "unused").

Definition net_update_rejected : Network :=
  scripted echo_1234 (Answer (json_response 200 (record_body (JStr "1.2.3.3"))))
           (Answer (json_response 200 (JObj {[ "success" := JBool false ]})))
           (ConnectionFailed "unused").

Definition net_scenario : Network :=
  scripted echo_1234
           (Answer (json_response 200
              (JObj {[ "success" := JBool true; "result" := JObj published_record ]})))
           (Answer (json_response 200 ok_body)) (ConnectionFailed "unused").

Definition net_result_null : Network :=
  scripted echo_1234 (Answer (json_response 200 body_result_null))
           (Answer (json_response 200 ok_body)) (ConnectionFailed "unused").

Definition net_empty_body : Network :=
  scripted echo_1234 (Answer (json_response 200 (JObj ∅)))
           (Answer (json_response 200 ok_body)) (ConnectionFailed "unused").

Definition net_no_result : Network :=
  scripted echo_1234 (Answer (json_response 200 (JObj {[ "success" := JBool false ]})))
           (Answer (json_response 200 ok_body)) (ConnectionFailed "unused").

(** A network on which every call fails. *)
Definition net_dead : Network := fun _ _ => ConnectionFailed "unreachable".

(** ** Module configuration *)

(** [str.lower()] on the ASCII letters.  Compared with "true" it decides as
    Python's Unicode [lower] does: no character outside ASCII lowers to one
    of t, r, u, e. *)
Definition ascii_lower (c : ascii) : ascii :=
  let n := nat_of_ascii c in
  if (65 <=? n)%nat && (n <=? 90)%nat then ascii_of_nat (n + 32) else c.

Fixpoint str_lower (s : string) : string :=
  match s with
  | EmptyString => EmptyString
  | String c rest => String (ascii_lower c) (str_lower rest)
  end.

(** Line 32: [PROXIED = os.getenv("PROXIED", "false").lower() == "true"] *)
Definition PROXIED_of_env (env : string → option string) : bool :=
  String.eqb (str_lower (default "false" (env "PROXIED"))) "true".

(** ** The events of the loop *)

(** A setting that [not] takes for missing: unset, or set to nothing. *)
Definition unset (o : option string) : Prop := o = None ∨ o = Some "".

(** Does the request address the record list, /zones/{..}/dns_records? *)
Definition is_list (r : Request) : bool :=
  match method r, url r with
  | GET, [Lit a; Val _; Lit b] =>
      String.eqb a "https://api.cloudflare.com/client/v4/zones/" && String.eqb b "/dns_records"
  | _, _ => false
  end.

Definition list_calls (evs : list Event) : list Request := List.filter is_list (calls evs).

(** The events of one pass under globals [g]: the echo call, then possibly
    the read call, then possibly one update call. *)
Definition pass_shape (g : Globals) (p : list Event) : Prop :=
  p = [Call echo_request] ∨
  p = [Call echo_request; Call (read_request g)] ∨
  ∃ ip, p = [Call echo_request; Call (read_request g); Call (update_request g ip)].

(** The events the loop can add under globals [g]. *)
Definition loop_event (g : Globals) (e : Event) : Prop :=
  e = Call echo_request ∨
  e = Call (read_request g) ∨
  (∃ ip, e = Call (update_request g ip)) ∨
  e = Sleep (CHECK_INTERVAL g).

(** The names [main] reports as missing. *)
Definition missing_names (g : Globals) : list string :=
  (if py_truthy (of_env (CF_API_TOKEN g)) then [] else ["CLOUDFLARE_API_TOKEN"]) ++
  (if py_truthy (of_env (ZONE_ID g)) then [] else ["ZONE_ID"]).

(** ** More sample configurations and networks *)

(** The token is set to the empty string. *)
Definition globals_empty_token : Globals :=
  {| CF_API_TOKEN := Some ""; ZONE_ID := Some "zone1"; DNS_RECORD_ID := JStr "abc123";
     DOMAIN_NAME := Some "home.example.com"; RECORD_TYPE := "A"; TTL := 3600;
     PROXIED := false; CHECK_INTERVAL := 300 |}.

Definition globals_negative_interval : Globals :=
  {| CF_API_TOKEN := Some "tok"; ZONE_ID := Some "zone1"; DNS_RECORD_ID := JStr "abc123";
     DOMAIN_NAME := Some "home.example.com"; RECORD_TYPE := "A"; TTL := 3600;
     PROXIED := false; CHECK_INTERVAL := -1 |}.

Definition globals_huge_interval : Globals :=
  {| CF_API_TOKEN := Some "tok"; ZONE_ID := Some "zone1"; DNS_RECORD_ID := JStr "abc123";
     DOMAIN_NAME := Some "home.example.com"; RECORD_TYPE := "A"; TTL := 3600;
     PROXIED := false; CHECK_INTERVAL := 10000000000 |}.

(** The list call finds two records; the record is at 1.2.3.3. *)
Definition net_found : Network :=
  net_listing (Answer (json_response 200 (list_body two_records))).

(** The record read answers 200 with a JSON list. *)
Definition net_read_list : Network :=
  scripted echo_1234 (Answer (json_response 200 (JList [JStr "unexpected"])))
           (Answer (json_response 200 ok_body)) (ConnectionFailed "unused").

(** An environment with PROXIED=True and nothing else. *)
Definition env_proxied (var : string) : option string :=
  if String.eqb var "PROXIED" then Some "True" else None.

(** * Properties *)

(** ** States and traces *)

Lemma extend_nil s : extend s [] [] = s.
Proof. destruct s; unfold extend; simpl. by rewrite !app_nil_r. Qed.

Lemma extend_extend s e1 l1 e2 l2 :
  extend (extend s e1 l1) e2 l2 = extend s (e1 ++ e2) (l1 ++ l2).
Proof. unfold extend; simpl. by rewrite !app_assoc. Qed.

Lemma add_event_extend e s : add_event e s = extend s [e] [].
Proof. unfold add_event, extend. by rewrite app_nil_r. Qed.

Lemma add_log_extend l s : add_log l s = extend s [] [l].
Proof. unfold add_log, extend. by rewrite app_nil_r. Qed.

Lemma length_trace_extend s evs ls :
  List.length (trace (extend s evs ls)) = (List.length (trace s) + List.length evs)%nat.
Proof. simpl. apply length_app. Qed.

Lemma events_of_extend {A} (m : M A) net s r evs ls :
  m net s = (r, extend s evs ls) → events_of m net s = evs.
Proof.
  intros H. unfold events_of, run_state. rewrite H. simpl.
  apply drop_app_length.
Qed.

Lemma events_of_trace {A} (m : M A) net s r s' evs :
  m net s = (r, s') → trace s' = trace s ++ evs → events_of m net s = evs.
Proof.
  intros H Ht. unfold events_of, run_state. rewrite H. simpl. rewrite Ht.
  apply drop_app_length.
Qed.

Lemma logged_by_extend {A} (m : M A) net s r evs ls :
  m net s = (r, extend s evs ls) → logged_by m net s = ls.
Proof.
  intros H. unfold logged_by, run_state. rewrite H. simpl.
  apply drop_app_length.
Qed.

Lemma calls_app e1 e2 : calls (e1 ++ e2) = calls e1 ++ calls e2.
Proof. unfold calls. apply omap_app. Qed.

Lemma echo_calls_app e1 e2 : echo_calls (e1 ++ e2) = echo_calls e1 ++ echo_calls e2.
Proof. unfold echo_calls. by rewrite calls_app, List.filter_app. Qed.

(** The classifiers recognise the requests the script builds. *)
Lemma is_echo_echo_request : is_echo echo_request = true.
Proof. reflexivity. Qed.

Lemma is_read_read_request g : is_read (read_request g) = true.
Proof. reflexivity. Qed.

Lemma is_update_update_request g ip : is_update (update_request g ip) = true.
Proof. reflexivity. Qed.

Lemma reply_at_log_only net s ls r :
  reply_at net (extend s [] ls) r = reply_at net s r.
Proof. unfold reply_at. simpl. by rewrite app_nil_r. Qed.

Lemma reply_at_after_one net s e ls r :
  reply_at net (extend s [e] ls) r = net (S (List.length (trace s))) r.
Proof. unfold reply_at. rewrite length_trace_extend. simpl. by rewrite Nat.add_1_r. Qed.

Lemma reply_at_after_two net s e1 e2 ls r :
  reply_at net (extend s [e1; e2] ls) r = net (S (S (List.length (trace s)))) r.
Proof.
  unfold reply_at. rewrite length_trace_extend. simpl.
  by rewrite Nat.add_comm.
Qed.

(** ** The monad *)

Lemma bind_ok {A B} (m : M A) (k : A → M B) net s a s' :
  m net s = (Ok a, s') → bind m k net s = k a net s'.
Proof. intros H. unfold bind. by rewrite H. Qed.

Lemma bind_raised {A B} (m : M A) (k : A → M B) net s e s' :
  m net s = (Raised e, s') → bind m k net s = (Raised e, s').
Proof. intros H. unfold bind. by rewrite H. Qed.

Lemma try_except_ok {A} (m : M A) h net s a s' :
  m net s = (Ok a, s') → try_except m h net s = (Ok a, s').
Proof. intros H. unfold try_except. by rewrite H. Qed.

Lemma try_except_raised {A} (m : M A) h net s e s' :
  m net s = (Raised e, s') → try_except m h net s = h e net s'.
Proof. intros H. unfold try_except. by rewrite H. Qed.

Lemma send_answer net s r resp :
  net (List.length (trace s)) r = Answer resp →
  send r net s = (Ok resp, extend s [Call r] []).
Proof. intros H. unfold send. by rewrite H, add_event_extend. Qed.

Lemma send_failed net s r msg :
  net (List.length (trace s)) r = ConnectionFailed msg →
  send r net s = (Raised (RequestException msg), extend s [Call r] []).
Proof. intros H. unfold send. by rewrite H, add_event_extend. Qed.

Lemma logger_info_run msg net s :
  logger_info msg net s = (Ok tt, extend s [] [{| level := INFO; message := msg |}]).
Proof. unfold logger_info. by rewrite add_log_extend. Qed.

Lemma logger_error_run msg net s :
  logger_error msg net s = (Ok tt, extend s [] [{| level := ERROR; message := msg |}]).
Proof. unfold logger_error. by rewrite add_log_extend. Qed.

(** Run what is left of a computation once its branch is known. *)
Ltac finish :=
  unfold bind, ret, raise, lift, try_except, logger_info, logger_error,
    add_log, add_event, extend;
  simpl; rewrite ?app_nil_r, <- ?app_assoc; simpl; try reflexivity.

(** ** Python values *)

Lemma str_ne_false_iff ip v : str_ne ip v = false ↔ v = JStr ip.
Proof.
  destruct v; simpl; try (split; [discriminate|discriminate]).
  rewrite negb_false_iff, String.eqb_eq. split; [by intros ->|by intros [= ->]].
Qed.

Lemma nonempty_truthy (m : gmap string json) k v :
  m !! k = Some v → py_truthy (JObj m) = true.
Proof.
  intros H. simpl. destruct (size m) eqn:Hsize; [|done].
  apply map_size_empty_iff in Hsize. subst m. by rewrite lookup_empty in H.
Qed.

Lemma extract_content_result (m record : gmap string json) :
  m !! "result" = Some (JObj record) →
  extract_content (JObj m) = Ok (default JNull (record !! "content")).
Proof. intros H. unfold extract_content. simpl. rewrite H. reflexivity. Qed.

(** ** The IP resolver *)

Lemma get_current_ip_ok net s ip :
  resolves (echo_reply net s) ip →
  get_current_ip net s = (Ok ip, extend s [Call echo_request] []).
Proof.
  intros (resp & Hr & Hst & Htx). unfold echo_reply in Hr.
  unfold get_current_ip, requests_get. fold echo_request.
  apply try_except_ok.
  rewrite (bind_ok _ _ _ _ _ _ (send_answer _ _ _ _ Hr)).
  rewrite Hst. simpl. by rewrite Htx.
Qed.

Lemma get_current_ip_fails net s :
  http_fails (echo_reply net s) →
  ∃ e, get_current_ip net s =
       (Raised e,
        extend s [Call echo_request]
               [{| level := ERROR; message := [Lit "Error getting current IP: "; StrExc e] |}]).
Proof.
  unfold echo_reply, http_fails. intros H.
  unfold get_current_ip, requests_get. fold echo_request.
  destruct (net (List.length (trace s)) echo_request) as [msg|resp] eqn:Hr.
  - exists (RequestException msg).
    erewrite try_except_raised by (apply bind_raised, send_failed, Hr).
    unfold bind. rewrite logger_error_run. unfold raise. by rewrite extend_extend.
  - exists (Exception_ [Lit "Failed to get IP: "; Val (JInt (status_code resp))]).
    erewrite try_except_raised.
    2:{ rewrite (bind_ok _ _ _ _ _ _ (send_answer _ _ _ _ Hr)).
        apply Z.eqb_neq in H. rewrite H. reflexivity. }
    unfold bind. rewrite logger_error_run. unfold raise. by rewrite extend_extend.
Qed.

(** Either the echo fails at the HTTP level or it resolves an IP. *)
Lemma echo_fails_or_resolves (r : Reply) :
  http_fails r ∨ ∃ ip, resolves r ip.
Proof.
  destruct r as [msg|resp]; [by left|].
  destruct (Z.eq_dec (status_code resp) 200) as [H|H]; [right|by left].
  exists (text resp), resp. done.
Qed.

(** ** The record client *)

Lemma get_cloudflare_dns_record_ok net s v :
  reads (reply_at net s (read_request (globals s))) v →
  get_cloudflare_dns_record net s = (Ok v, extend s [Call (read_request (globals s))] []).
Proof.
  intros (resp & Hr & Hst & Hj). unfold reply_at in Hr.
  unfold get_cloudflare_dns_record, read_globals, requests_get.
  unfold bind at 1. fold (read_request (globals s)).
  apply try_except_ok.
  rewrite (bind_ok _ _ _ _ _ _ (send_answer _ _ _ _ Hr)).
  rewrite Hst. simpl. unfold lift, response_json. by rewrite Hj.
Qed.

Lemma get_cloudflare_dns_record_fails net s :
  read_fails (reply_at net s (read_request (globals s))) →
  ∃ msg, get_cloudflare_dns_record net s =
         (Ok JNull, extend s [Call (read_request (globals s))]
                            [{| level := ERROR; message := msg |}]).
Proof.
  unfold reply_at, read_fails. intros H.
  unfold get_cloudflare_dns_record, read_globals, requests_get.
  unfold bind at 1. fold (read_request (globals s)).
  destruct (net (List.length (trace s)) (read_request (globals s))) as [m|resp] eqn:Hr.
  - eexists.
    erewrite try_except_raised by (apply bind_raised, send_failed, Hr).
    unfold bind. rewrite logger_error_run. unfold ret. by rewrite extend_extend.
  - destruct (Z.eq_dec (status_code resp) 200) as [Hst|Hst].
    + destruct H as [H|H]; [done|]. eexists.
      erewrite try_except_raised.
      2:{ rewrite (bind_ok _ _ _ _ _ _ (send_answer _ _ _ _ Hr)).
          rewrite Hst. simpl. unfold lift, response_json. by rewrite H. }
      unfold bind. rewrite logger_error_run. unfold ret. by rewrite extend_extend.
    + eexists. apply Z.eqb_neq in Hst.
      erewrite try_except_ok.
      2:{ rewrite (bind_ok _ _ _ _ _ _ (send_answer _ _ _ _ Hr)).
          rewrite Hst. unfold bind. rewrite logger_error_run. unfold ret.
          by rewrite extend_extend. }
      done.
Qed.

(** The read never raises and issues exactly one call. *)
Lemma get_cloudflare_dns_record_total net s :
  ∃ v ls, get_cloudflare_dns_record net s =
          (Ok v, extend s [Call (read_request (globals s))] ls).
Proof.
  destruct (reply_at net s (read_request (globals s))) as [m|resp] eqn:Hr.
  - destruct (get_cloudflare_dns_record_fails net s) as [msg H]; [by rewrite Hr|]. eauto.
  - destruct (Z.eq_dec (status_code resp) 200) as [Hst|Hst].
    + destruct (json_body resp) as [v|] eqn:Hj.
      * exists v, []. apply get_cloudflare_dns_record_ok. by exists resp.
      * destruct (get_cloudflare_dns_record_fails net s) as [msg H]; [|by eauto].
        rewrite Hr. by right.
    + destruct (get_cloudflare_dns_record_fails net s) as [msg H]; [|by eauto].
      rewrite Hr. by left.
Qed.

Lemma update_cloudflare_dns_record_run net s ip :
  let req := update_request (globals s) ip in
  let o := update_outcome (reply_at net s req) in
  update_cloudflare_dns_record ip net s =
    (Ok (accepted o), extend s [Call req] [update_log ip o]).
Proof.
  simpl. unfold reply_at, update_outcome.
  unfold update_cloudflare_dns_record, read_globals, requests_put.
  unfold bind at 1. fold (update_request (globals s) ip).
  destruct (net (List.length (trace s)) (update_request (globals s) ip)) as [m|resp] eqn:Hr.
  - erewrite try_except_raised by (apply bind_raised, send_failed, Hr). by finish.
  - unfold try_except.
    rewrite (bind_ok _ _ _ _ _ _ (send_answer _ _ _ _ Hr)).
    destruct (status_code resp =? 200); [|by finish].
    unfold response_json.
    destruct (json_body resp) as [v|]; [|by finish].
    destruct v; try (by finish).
    destruct (m !! "success") as [ok|] eqn:Hok.
    + unfold bind at 1, lift at 1, bind at 1, lift at 1, py_get. rewrite Hok. simpl.
      destruct (py_truthy ok); by finish.
    + unfold bind at 1, lift at 1, bind at 1, lift at 1, py_get. rewrite Hok. by finish.
Qed.

Lemma update_fails_not_accepted r : update_fails r → accepted (update_outcome r) = false.
Proof.
  destruct r as [msg|resp]; [done|]. simpl.
  destruct (status_code resp =? 200) eqn:Hst; [|done].
  apply Z.eqb_eq in Hst.
  intros [H|[H|(body & H & Hok)]]; [done|by rewrite H|].
  rewrite H. by rewrite Hok.
Qed.

Lemma get_dns_record_id_run net s zone_id domain_name record_type :
  let req := list_request (globals s) zone_id domain_name record_type in
  let o := discovery_outcome (reply_at net s req) in
  get_dns_record_id zone_id domain_name record_type net s =
    (Ok (discovered o), extend s [Call req] [discovery_log domain_name record_type o]).
Proof.
  simpl. unfold reply_at, discovery_outcome.
  unfold get_dns_record_id, read_globals, requests_get.
  unfold bind at 1. fold (list_request (globals s) zone_id domain_name record_type).
  destruct (net (List.length (trace s)) (list_request (globals s) zone_id domain_name record_type))
    as [msg|resp] eqn:Hr.
  - erewrite try_except_raised by (apply bind_raised, send_failed, Hr). by finish.
  - unfold try_except.
    rewrite (bind_ok _ _ _ _ _ _ (send_answer _ _ _ _ Hr)).
    destruct (status_code resp =? 200); [|by finish].
    unfold response_json.
    destruct (json_body resp) as [v|]; [|by finish].
    destruct v; try (by finish).
    unfold bind at 1, lift at 1, bind at 1, lift at 1, py_get.
    destruct (m !! "success") as [ok|] eqn:Hok; simpl; [|by finish].
    destruct (py_truthy ok); simpl; [|by finish].
    unfold bind at 1, bind at 1, lift at 1.
    destruct (m !! "result") as [items|] eqn:Hitems; simpl; [|by finish].
    destruct (py_truthy items) eqn:Htruthy; simpl; [|by finish].
    destruct items as [| | | |str|l|d]; try discriminate; try (by finish).
    + destruct str; [discriminate|]. by finish.
    + destruct l as [|first l]; [discriminate|]. finish.
      destruct first; try reflexivity.
      unfold py_item. destruct (m0 !! "id"); reflexivity.
    + finish. simpl in Htruthy. destruct (size d); [discriminate|]. reflexivity.
Qed.

(** ** One pass *)

Lemma compare_and_update_falsy net s ip v :
  py_truthy v = false →
  compare_and_update ip v net s =
    (Ok tt, extend s [] [error [Lit "Failed to retrieve DNS record. Skipping update."]]).
Proof. intros H. unfold compare_and_update. rewrite H. simpl. apply logger_error_run. Qed.

Lemma compare_and_update_raises net s ip v e :
  py_truthy v = true → extract_content v = Raised e →
  compare_and_update ip v net s = (Raised e, s).
Proof.
  intros H He. unfold compare_and_update. rewrite H. simpl.
  apply bind_raised. unfold lift. by rewrite He.
Qed.

Lemma compare_and_update_same net s ip v cf_ip :
  py_truthy v = true → extract_content v = Ok cf_ip → str_ne ip cf_ip = false →
  compare_and_update ip v net s =
    (Ok tt, extend s []
              [info [Lit "Current Cloudflare DNS record IP: "; Val cf_ip];
               info [Lit "IP address unchanged. No update needed."]]).
Proof.
  intros H He Hne. unfold compare_and_update. rewrite H. simpl.
  unfold bind at 1, lift at 1. rewrite He.
  unfold bind at 1. rewrite logger_info_run, Hne, logger_info_run.
  by rewrite extend_extend.
Qed.

Lemma compare_and_update_differs net s ip v cf_ip :
  py_truthy v = true → extract_content v = Ok cf_ip → str_ne ip cf_ip = true →
  let req := update_request (globals s) ip in
  let o := update_outcome (reply_at net s req) in
  compare_and_update ip v net s =
    (Ok tt, extend s [Call req]
              [info [Lit "Current Cloudflare DNS record IP: "; Val cf_ip];
               info [Lit "IP address has changed from "; Val cf_ip; Lit " to ";
                     Val (JStr ip); Lit ". Updating..."];
               update_log ip o;
               if accepted o then info [Lit "DNS record updated successfully"]
               else error [Lit "Failed to update DNS record"]]).
Proof.
  intros H He Hne. simpl. unfold compare_and_update. rewrite H. simpl.
  unfold bind at 1, lift at 1. rewrite He.
  unfold bind at 1. rewrite logger_info_run, Hne.
  unfold bind at 1. rewrite logger_info_run, extend_extend.
  unfold bind at 1. rewrite update_cloudflare_dns_record_run.
  rewrite extend_extend. simpl.
  rewrite reply_at_log_only.
  destruct (accepted _); rewrite ?logger_info_run, ?logger_error_run;
    by rewrite extend_extend.
Qed.

(** A pass whose IP echo fails: one call, two error lines. *)
Lemma check_and_update_echo_fails net s :
  http_fails (echo_reply net s) →
  ∃ e, check_and_update net s =
       (Ok tt, extend s [Call echo_request]
                 [error [Lit "Error getting current IP: "; StrExc e];
                  error [Lit "Error in check_and_update: "; StrExc e]]).
Proof.
  intros H. destruct (get_current_ip_fails net s H) as [e He]. exists e.
  unfold check_and_update, check_and_update_body.
  erewrite try_except_raised by (apply bind_raised, He).
  rewrite logger_error_run. by rewrite extend_extend.
Qed.

Lemma check_and_update_after_read net s ip v ls :
  resolves (echo_reply net s) ip →
  get_cloudflare_dns_record net
    (extend s [Call echo_request] [info [Lit "Current public IP: "; Val (JStr ip)]]) =
    (Ok v, extend (extend s [Call echo_request] [info [Lit "Current public IP: "; Val (JStr ip)]])
             [Call (read_request (globals s))] ls) →
  check_and_update net s =
    try_except (compare_and_update ip v) pass_handler net
      (extend s [Call echo_request; Call (read_request (globals s))]
              (info [Lit "Current public IP: "; Val (JStr ip)] :: ls)).
Proof.
  intros Hip Hread.
  unfold check_and_update, check_and_update_body. fold pass_handler.
  unfold try_except.
  rewrite (bind_ok _ _ _ _ _ _ (get_current_ip_ok _ _ _ Hip)).
  unfold bind at 1. rewrite logger_info_run, extend_extend. simpl.
  unfold bind at 1. unfold info in Hread. rewrite Hread.
  by rewrite extend_extend.
Qed.

Lemma check_and_update_reads net s ip v :
  resolves (echo_reply net s) ip → reads (read_reply net s) v →
  check_and_update net s =
    try_except (compare_and_update ip v) pass_handler net
      (extend s [Call echo_request; Call (read_request (globals s))]
              [info [Lit "Current public IP: "; Val (JStr ip)]]).
Proof.
  intros Hip Hread. apply check_and_update_after_read; [done|].
  pose proof (get_cloudflare_dns_record_ok net
    (extend s [Call echo_request] [info [Lit "Current public IP: "; Val (JStr ip)]]) v) as H.
  rewrite reply_at_after_one in H. by apply H.
Qed.

Lemma check_and_update_read_fails net s ip :
  resolves (echo_reply net s) ip → read_fails (read_reply net s) →
  ∃ msg, check_and_update net s =
    (Ok tt, extend s [Call echo_request; Call (read_request (globals s))]
              [info [Lit "Current public IP: "; Val (JStr ip)];
               error msg;
               error [Lit "Failed to retrieve DNS record. Skipping update."]]).
Proof.
  intros Hip Hread.
  destruct (get_cloudflare_dns_record_fails net
    (extend s [Call echo_request] [info [Lit "Current public IP: "; Val (JStr ip)]]))
    as [msg Hmsg]; [by rewrite reply_at_after_one|].
  exists msg. erewrite check_and_update_after_read by done.
  erewrite try_except_ok by (by apply compare_and_update_falsy).
  by rewrite extend_extend.
Qed.

(** A pass that finds the two addresses different: three calls, and the
    log says how the update went. *)
Lemma check_and_update_differs net s ip dns_record cf_ip :
  resolves (echo_reply net s) ip →
  reads (read_reply net s) dns_record →
  py_truthy dns_record = true →
  extract_content dns_record = Ok cf_ip →
  str_ne ip cf_ip = true →
  let o := update_outcome (update_reply net s ip) in
  check_and_update net s =
    (Ok tt,
     extend s [Call echo_request; Call (read_request (globals s));
               Call (update_request (globals s) ip)]
              [info [Lit "Current public IP: "; Val (JStr ip)];
               info [Lit "Current Cloudflare DNS record IP: "; Val cf_ip];
               info [Lit "IP address has changed from "; Val cf_ip; Lit " to ";
                     Val (JStr ip); Lit ". Updating..."];
               update_log ip o;
               if accepted o then info [Lit "DNS record updated successfully"]
               else error [Lit "Failed to update DNS record"]]).
Proof.
  intros Hip Hread Ht Hcf Hne. simpl.
  rewrite (check_and_update_reads _ _ _ _ Hip Hread).
  erewrite try_except_ok by (by apply compare_and_update_differs).
  rewrite extend_extend, reply_at_after_two. reflexivity.
Qed.

(** A pass that finds the two addresses equal. *)
Lemma check_and_update_same net s ip dns_record cf_ip :
  resolves (echo_reply net s) ip →
  reads (read_reply net s) dns_record →
  py_truthy dns_record = true →
  extract_content dns_record = Ok cf_ip →
  str_ne ip cf_ip = false →
  check_and_update net s =
    (Ok tt,
     extend s [Call echo_request; Call (read_request (globals s))]
              [info [Lit "Current public IP: "; Val (JStr ip)];
               info [Lit "Current Cloudflare DNS record IP: "; Val cf_ip];
               info [Lit "IP address unchanged. No update needed."]]).
Proof.
  intros Hip Hread Ht Hcf Hne.
  rewrite (check_and_update_reads _ _ _ _ Hip Hread).
  erewrite try_except_ok by (by apply compare_and_update_same).
  by rewrite extend_extend.
Qed.

(** A pass whose read returns something [extract_content] cannot use. *)
Lemma check_and_update_unusable net s ip dns_record e :
  resolves (echo_reply net s) ip →
  reads (read_reply net s) dns_record →
  py_truthy dns_record = true →
  extract_content dns_record = Raised e →
  check_and_update net s =
    (Ok tt,
     extend s [Call echo_request; Call (read_request (globals s))]
              [info [Lit "Current public IP: "; Val (JStr ip)];
               error [Lit "Error in check_and_update: "; StrExc e]]).
Proof.
  intros Hip Hread Ht Hcf.
  rewrite (check_and_update_reads _ _ _ _ Hip Hread).
  erewrite try_except_raised by (by apply compare_and_update_raises).
  unfold pass_handler. rewrite logger_error_run. by rewrite extend_extend.
Qed.

(** A pass whose read returns an empty or otherwise false value. *)
Lemma check_and_update_falsy net s ip dns_record :
  resolves (echo_reply net s) ip →
  reads (read_reply net s) dns_record →
  py_truthy dns_record = false →
  check_and_update net s =
    (Ok tt,
     extend s [Call echo_request; Call (read_request (globals s))]
              [info [Lit "Current public IP: "; Val (JStr ip)];
               error [Lit "Failed to retrieve DNS record. Skipping update."]]).
Proof.
  intros Hip Hread Ht.
  rewrite (check_and_update_reads _ _ _ _ Hip Hread).
  erewrite try_except_ok by (by apply compare_and_update_falsy).
  by rewrite extend_extend.
Qed.

(** A pass never raises: whatever the network answers, it returns, having
    added events and log lines only. *)
Lemma check_and_update_total net s :
  ∃ evs ls, check_and_update net s = (Ok tt, extend s evs ls).
Proof.
  destruct (echo_fails_or_resolves (echo_reply net s)) as [H|[ip Hip]].
  { destruct (check_and_update_echo_fails net s H) as [e He]. eauto. }
  destruct (get_cloudflare_dns_record_total net
    (extend s [Call echo_request] [info [Lit "Current public IP: "; Val (JStr ip)]]))
    as (v & ls & Hv).
  rewrite (check_and_update_after_read _ _ _ _ _ Hip Hv).
  destruct (py_truthy v) eqn:Hv1.
  2:{ erewrite try_except_ok by (by apply compare_and_update_falsy).
      rewrite extend_extend. eauto. }
  destruct (extract_content v) as [cf_ip|e] eqn:Hv2.
  2:{ erewrite try_except_raised by (by apply compare_and_update_raises).
      unfold pass_handler. rewrite logger_error_run, extend_extend. eauto. }
  destruct (str_ne ip cf_ip) eqn:Hv3.
  - erewrite try_except_ok by (by apply compare_and_update_differs).
    rewrite extend_extend. eauto.
  - erewrite try_except_ok by (by apply compare_and_update_same).
    rewrite extend_extend. eauto.
Qed.

(** What a pass adds to the trace: the echo call, then possibly the read
    call, then possibly the update call. *)
Lemma check_and_update_events net s :
  ∃ rest ls,
    check_and_update net s = (Ok tt, extend s (Call echo_request :: rest) ls) ∧
    (rest = [] ∨ rest = [Call (read_request (globals s))] ∨
     ∃ ip, rest = [Call (read_request (globals s)); Call (update_request (globals s) ip)]).
Proof.
  destruct (echo_fails_or_resolves (echo_reply net s)) as [H|[ip Hip]].
  { destruct (check_and_update_echo_fails net s H) as [e He].
    eexists _, _. split; [exact He|]. by left. }
  destruct (get_cloudflare_dns_record_total net
    (extend s [Call echo_request] [info [Lit "Current public IP: "; Val (JStr ip)]]))
    as (v & ls & Hv).
  rewrite (check_and_update_after_read _ _ _ _ _ Hip Hv).
  destruct (py_truthy v) eqn:Hv1.
  2:{ erewrite try_except_ok by (by apply compare_and_update_falsy).
      rewrite extend_extend. eexists _, _. split; [reflexivity|]. right. by left. }
  destruct (extract_content v) as [cf_ip|e] eqn:Hv2.
  2:{ erewrite try_except_raised by (by apply compare_and_update_raises).
      unfold pass_handler. rewrite logger_error_run, extend_extend.
      eexists _, _. split; [reflexivity|]. right. by left. }
  destruct (str_ne ip cf_ip) eqn:Hv3.
  - erewrite try_except_ok by (by apply compare_and_update_differs).
    rewrite extend_extend. simpl.
    eexists _, _. split; [reflexivity|]. right. right. by exists ip.
  - erewrite try_except_ok by (by apply compare_and_update_same).
    rewrite extend_extend. eexists _, _. split; [reflexivity|]. right. by left.
Qed.

(** A pass makes exactly one echo call. *)
Lemma check_and_update_one_echo net s :
  ∃ evs ls,
    check_and_update net s = (Ok tt, extend s evs ls) ∧
    List.length (echo_calls evs) = 1%nat.
Proof.
  destruct (check_and_update_events net s) as (rest & ls & Hrun & Hrest).
  exists (Call echo_request :: rest), ls. split; [done|].
  destruct Hrest as [->|[->|[ip ->]]]; reflexivity.
Qed.

(** ** The reconcile loop and startup *)

(** [time.sleep] either returns, having slept, or raises and adds nothing. *)
Lemma time_sleep_total secs net s :
  time_sleep secs net s = (Ok tt, extend s [Sleep secs] []) ∨
  ∃ e, time_sleep secs net s = (Raised e, s).
Proof.
  unfold time_sleep.
  destruct ((secs <? - sleep_limit) || (sleep_limit <? secs)); [right; eauto|].
  destruct (secs <? 0); [right; eauto|].
  destruct (clock s (List.length (trace s)) secs); [right; eauto|].
  left. by rewrite add_event_extend.
Qed.

Lemma time_sleep_returns secs net s :
  sleep_returns s secs → time_sleep secs net s = (Ok tt, extend s [Sleep secs] []).
Proof.
  intros [[Hlo Hhi] Hclock]. unfold time_sleep.
  assert ((secs <? - sleep_limit) = false) as ->
    by (apply Z.ltb_ge; unfold sleep_limit in *; lia).
  assert ((sleep_limit <? secs) = false) as -> by (by apply Z.ltb_ge).
  assert ((secs <? 0) = false) as -> by (by apply Z.ltb_ge).
  simpl. rewrite (Hclock _ (Nat.le_refl _)). by rewrite add_event_extend.
Qed.

Lemma sleep_returns_extend s evs ls secs :
  sleep_returns s secs → sleep_returns (extend s evs ls) secs.
Proof.
  intros [Hrange Hclock]. split; [done|].
  intros k Hk. simpl in *. apply Hclock. rewrite length_app in Hk. lia.
Qed.

Lemma sleep_returns_after_discovery s v secs :
  sleep_returns s secs → sleep_returns (set_DNS_RECORD_ID v s) secs.
Proof. intros [Hrange Hclock]. split; [done|]. exact Hclock. Qed.

(** The loop only ever adds to the trace and the log. *)
Lemma reconcile_loop_extends ticks net s :
  ∃ r evs ls, reconcile_loop ticks net s = (r, extend s evs ls).
Proof.
  revert s. induction ticks as [|n IH]; intros s.
  - exists (Ok Looping), [], []. by rewrite extend_nil.
  - destruct (check_and_update_total net s) as (evs & ls & Hpass).
    simpl. rewrite (bind_ok _ _ _ _ _ _ Hpass).
    unfold bind at 1, read_globals. simpl.
    unfold bind at 1.
    destruct (time_sleep_total (CHECK_INTERVAL (globals s)) net (extend s evs ls))
      as [Hsleep|[e Hsleep]]; rewrite Hsleep; [|eauto].
    rewrite extend_extend.
    destruct (IH (extend s (evs ++ [Sleep (CHECK_INTERVAL (globals s))]) (ls ++ [])))
      as (r & evs' & ls' & Hloop).
    rewrite Hloop, extend_extend. eauto.
Qed.

(** When [time.sleep] returns for the configured length, the loop observed
    for [ticks] iterations has run [ticks] passes and is still looping. *)
Lemma reconcile_loop_keeps_going ticks net s :
  sleep_returns s (CHECK_INTERVAL (globals s)) →
  ∃ evs ls,
    reconcile_loop ticks net s = (Ok Looping, extend s evs ls) ∧
    List.length (echo_calls evs) = ticks.
Proof.
  revert s. induction ticks as [|n IH]; intros s Hsleep.
  - exists [], []. by rewrite extend_nil.
  - destruct (check_and_update_one_echo net s) as (evs & ls & Hpass & Hone).
    simpl. rewrite (bind_ok _ _ _ _ _ _ Hpass).
    unfold bind at 1, read_globals. simpl.
    unfold bind at 1.
    rewrite (time_sleep_returns _ net _ (sleep_returns_extend s evs ls _ Hsleep)).
    rewrite extend_extend.
    destruct (IH (extend s (evs ++ [Sleep (CHECK_INTERVAL (globals s))]) (ls ++ [])))
      as (evs' & ls' & Hloop & Hcount); [by apply sleep_returns_extend|].
    rewrite Hloop, extend_extend.
    eexists _, _. split; [reflexivity|].
    rewrite !echo_calls_app, !length_app, Hone, Hcount. reflexivity.
Qed.

Lemma main_loop_extends ticks net s :
  ∃ r evs ls, main_loop ticks net s = (r, extend s evs ls).
Proof.
  unfold main_loop. unfold bind at 1, read_globals. simpl.
  unfold bind at 1. rewrite logger_info_run.
  destruct (reconcile_loop_extends ticks net
    (extend s [] [info [Lit "Will check for IP changes every ";
                        Val (JInt (CHECK_INTERVAL (globals s))); Lit " seconds"]]))
    as ([st|e] & evs & ls & Hloop).
  - unfold info in Hloop. erewrite try_except_ok by exact Hloop.
    rewrite extend_extend. eauto.
  - unfold info in Hloop. erewrite try_except_raised by exact Hloop.
    unfold bind. rewrite logger_error_run. unfold ret.
    rewrite !extend_extend. eauto.
Qed.

Lemma main_loop_keeps_going ticks net s :
  sleep_returns s (CHECK_INTERVAL (globals s)) →
  ∃ evs ls,
    main_loop ticks net s = (Ok Looping, extend s evs ls) ∧
    List.length (echo_calls evs) = ticks.
Proof.
  intros Hsleep.
  unfold main_loop. unfold bind at 1, read_globals. simpl.
  unfold bind at 1. rewrite logger_info_run.
  destruct (reconcile_loop_keeps_going ticks net
    (extend s [] [info [Lit "Will check for IP changes every ";
                        Val (JInt (CHECK_INTERVAL (globals s))); Lit " seconds"]]))
    as (evs & ls & Hloop & Hcount); [by apply sleep_returns_extend|].
  unfold info in Hloop. erewrite try_except_ok by exact Hloop.
  rewrite extend_extend. eauto.
Qed.

Lemma getenv_token g : getenv g "CLOUDFLARE_API_TOKEN" = CF_API_TOKEN g.
Proof. reflexivity. Qed.

Lemma getenv_zone g : getenv g "ZONE_ID" = ZONE_ID g.
Proof. reflexivity. Qed.

Lemma main_missing_vars net s ticks :
  required_present (globals s) = false →
  ∃ ls, main ticks net s = (Ok Exited, extend s [] ls).
Proof.
  unfold required_present. intros H.
  unfold main. unfold bind at 1. rewrite logger_info_run.
  unfold bind at 1, read_globals. simpl. rewrite getenv_token, getenv_zone.
  destruct (py_truthy (of_env (CF_API_TOKEN (globals s)))),
           (py_truthy (of_env (ZONE_ID (globals s)))); try discriminate;
    finish; eexists; reflexivity.
Qed.

Lemma main_no_domain net s ticks :
  required_present (globals s) = true →
  py_truthy (DNS_RECORD_ID (globals s)) = false →
  py_truthy (of_env (DOMAIN_NAME (globals s))) = false →
  ∃ ls, main ticks net s = (Ok Exited, extend s [] ls).
Proof.
  unfold required_present. intros [H1 H2]%andb_true_iff Hid Hdom.
  unfold main. unfold bind at 1. rewrite logger_info_run.
  unfold bind at 1, read_globals. simpl. rewrite getenv_token, getenv_zone, H1, H2. simpl.
  rewrite Hid, Hdom. finish. eexists; reflexivity.
Qed.

Lemma main_discovers net s ticks :
  required_present (globals s) = true →
  py_truthy (DNS_RECORD_ID (globals s)) = false →
  py_truthy (of_env (DOMAIN_NAME (globals s))) = true →
  let req := discovery_request (globals s) in
  let record_id := discovered (discovery_outcome (reply_at net s req)) in
  ∃ ls,
    main ticks net s =
      (if py_truthy record_id then main_loop ticks else ret Exited) net
        (set_DNS_RECORD_ID record_id (extend s [Call req] ls)).
Proof.
  unfold required_present. intros [H1 H2]%andb_true_iff Hid Hdom. simpl.
  unfold main. unfold bind at 1. rewrite logger_info_run.
  unfold bind at 1, read_globals. simpl. rewrite getenv_token, getenv_zone, H1, H2. simpl.
  rewrite Hid, Hdom. simpl.
  destruct (py_truthy (discovered (discovery_outcome
              (reply_at net s (discovery_request (globals s)))))) eqn:Hfound;
    eexists;
    (unfold bind at 1; rewrite logger_info_run, extend_extend;
     unfold bind at 1; rewrite get_dns_record_id_run, extend_extend;
     rewrite reply_at_log_only; simpl; fold (discovery_request (globals s));
     unfold bind at 1, assign_DNS_RECORD_ID; rewrite Hfound; simpl;
     unfold bind at 1; rewrite ?logger_info_run, ?logger_error_run; unfold ret;
     unfold set_DNS_RECORD_ID, extend; simpl; rewrite <- !app_assoc; simpl;
     reflexivity).
Qed.

Lemma main_with_record_id net s ticks :
  required_present (globals s) = true →
  py_truthy (DNS_RECORD_ID (globals s)) = true →
  main ticks net s =
    main_loop ticks net
      (extend s [] [info [Lit "Starting Cloudflare Dynamic DNS updater"]]).
Proof.
  unfold required_present. intros [H1 H2]%andb_true_iff Hid.
  unfold main. unfold bind at 1. rewrite logger_info_run.
  unfold bind at 1, read_globals. simpl.
  rewrite getenv_token, getenv_zone, H1, H2. simpl. by rewrite Hid.
Qed.

(** ** The pass: claims C1 to C4 *)

(** C1. In every pass in which the resolved public IP differs from the
    published IP extracted from the read record, exactly one update call is
    issued: a PUT to the record whose body holds content = the resolved IP
    and the configuration's record type, domain name, ttl and proxied
    flag. *)
Theorem update_issued_when_ip_differs net s ip dns_record cf_ip :
  resolves (echo_reply net s) ip →
  reads (read_reply net s) dns_record →
  py_truthy dns_record = true →
  extract_content dns_record = Ok cf_ip →
  str_ne ip cf_ip = true →
  ∃ r, update_calls (pass_events net s) = [r] ∧
       calls (pass_events net s) = [echo_request; read_request (globals s); r] ∧
       method r = PUT ∧
       url r = dns_record_url (globals s) ∧
       payload r = Some (JObj {[ "type" := JStr (RECORD_TYPE (globals s));
                                 "name" := of_env (DOMAIN_NAME (globals s));
                                 "content" := JStr ip;
                                 "ttl" := JInt (TTL (globals s));
                                 "proxied" := JBool (PROXIED (globals s)) ]}).
Proof.
  intros Hip Hread Ht Hcf Hne.
  exists (update_request (globals s) ip).
  assert (pass_events net s =
          [Call echo_request; Call (read_request (globals s));
           Call (update_request (globals s) ip)]) as ->.
  { unfold pass_events. eapply events_of_extend.
    by apply (check_and_update_differs _ _ _ _ _ Hip Hread Ht Hcf Hne). }
  repeat split.
Qed.

Lemma update_issued_when_ip_differs_witness :
  ∃ r, update_calls (pass_events net_changed (start sample_globals)) = [r] ∧
       calls (pass_events net_changed (start sample_globals)) =
         [echo_request; read_request sample_globals; r] ∧
       method r = PUT ∧
       url r = dns_record_url sample_globals ∧
       payload r = Some (JObj {[ "type" := JStr "A";
                                 "name" := JStr "home.example.com";
                                 "content" := JStr "1.2.3.4";
                                 "ttl" := JInt 3600;
                                 "proxied" := JBool false ]}).
Proof.
  apply (update_issued_when_ip_differs net_changed (start sample_globals) "1.2.3.4"
           (record_body (JStr "1.2.3.3")) (JStr "1.2.3.3")).
  - eexists. split; [reflexivity|]. split; reflexivity.
  - eexists. split; [reflexivity|]. split; reflexivity.
  - reflexivity.
  - reflexivity.
  - reflexivity.
Defined.

(** C2. In every pass in which the resolved public IP equals the published
    IP extracted from the read record, no update call is issued: the pass
    ends after logging that the address is unchanged, having made the echo
    call and the read call only. *)
Theorem no_update_when_ip_unchanged net s ip dns_record cf_ip :
  resolves (echo_reply net s) ip →
  reads (read_reply net s) dns_record →
  py_truthy dns_record = true →
  extract_content dns_record = Ok cf_ip →
  str_ne ip cf_ip = false →
  update_calls (pass_events net s) = [] ∧
  pass_events net s = [Call echo_request; Call (read_request (globals s))] ∧
  last (log (run_state check_and_update net s)) =
    Some (info [Lit "IP address unchanged. No update needed."]).
Proof.
  intros Hip Hread Ht Hcf Hne.
  pose proof (check_and_update_same _ _ _ _ _ Hip Hread Ht Hcf Hne) as Hrun.
  unfold pass_events. rewrite (events_of_extend _ _ _ _ _ _ Hrun).
  split; [reflexivity|]. split; [reflexivity|].
  unfold run_state. rewrite Hrun. simpl.
  rewrite last_app. reflexivity.
Qed.

Lemma no_update_when_ip_unchanged_witness :
  update_calls (pass_events net_unchanged (start sample_globals)) = [] ∧
  pass_events net_unchanged (start sample_globals) =
    [Call echo_request; Call (read_request sample_globals)] ∧
  last (log (run_state check_and_update net_unchanged (start sample_globals))) =
    Some (info [Lit "IP address unchanged. No update needed."]).
Proof.
  apply (no_update_when_ip_unchanged net_unchanged (start sample_globals) "1.2.3.4"
           (record_body (JStr "1.2.3.4")) (JStr "1.2.3.4")).
  - eexists. split; [reflexivity|]. split; reflexivity.
  - eexists. split; [reflexivity|]. split; reflexivity.
  - reflexivity.
  - reflexivity.
  - reflexivity.
Defined.

(** C3. In every pass in which the IP-echo call fails, by a transport
    error or any status other than 200, the echo call is the only call of
    the pass: neither the record read call nor the update call occurs. *)
Theorem echo_failure_ends_pass net s :
  http_fails (echo_reply net s) →
  pass_events net s = [Call echo_request] ∧
  read_calls (pass_events net s) = [] ∧
  update_calls (pass_events net s) = [].
Proof.
  intros H. destruct (check_and_update_echo_fails net s H) as [e He].
  unfold pass_events. rewrite (events_of_extend _ _ _ _ _ _ He).
  repeat split.
Qed.

Lemma echo_failure_ends_pass_witness :
  pass_events net_echo_down (start sample_globals) = [Call echo_request] ∧
  read_calls (pass_events net_echo_down (start sample_globals)) = [] ∧
  update_calls (pass_events net_echo_down (start sample_globals)) = [].
Proof.
  apply (echo_failure_ends_pass net_echo_down (start sample_globals)).
  vm_compute. discriminate.
Defined.

(** C4. In every pass in which the record read call fails, the record
    client reporting a transport error, a status other than 200 or an
    unreadable body, no update call occurs: the pass ends after the echo
    call and the read call. *)
Theorem read_failure_issues_no_update net s ip :
  resolves (echo_reply net s) ip →
  read_fails (read_reply net s) →
  update_calls (pass_events net s) = [] ∧
  pass_events net s = [Call echo_request; Call (read_request (globals s))].
Proof.
  intros Hip Hread.
  destruct (check_and_update_read_fails net s ip Hip Hread) as [msg Hrun].
  unfold pass_events. rewrite (events_of_extend _ _ _ _ _ _ Hrun).
  split; reflexivity.
Qed.

Lemma read_failure_issues_no_update_witness :
  update_calls (pass_events net_read_denied (start sample_globals)) = [] ∧
  pass_events net_read_denied (start sample_globals) =
    [Call echo_request; Call (read_request sample_globals)].
Proof.
  apply (read_failure_issues_no_update net_read_denied (start sample_globals) "1.2.3.4").
  - eexists. split; [reflexivity|]. split; reflexivity.
  - left. vm_compute. discriminate.
Defined.

(** ** Startup and the record client: claims C5 to C7 *)

(** C5. When the configured record identifier is absent, startup needs a
    domain name and invokes record discovery: with the required settings
    and a domain name present, the first call of the run is the discovery
    call.  If the domain name is absent too, or discovery yields no
    identifier, [main] returns before the reconcile loop: however long the
    run is observed it has exited, no pass has run (no echo, read or update
    call, no sleep), and the discovery call is the only call it can have
    made. *)
Theorem startup_without_record_id net s ticks :
  py_truthy (DNS_RECORD_ID (globals s)) = false →
  (py_truthy (of_env (DOMAIN_NAME (globals s))) = false ∨
   (∀ v, run_result (get_dns_record_id (of_env (ZONE_ID (globals s)))
                       (of_env (DOMAIN_NAME (globals s)))
                       (JStr (RECORD_TYPE (globals s)))) net s = Ok v →
         py_truthy v = false) →
   run_result (main ticks) net s = Ok Exited ∧
   echo_calls (events_of (main ticks) net s) = [] ∧
   read_calls (events_of (main ticks) net s) = [] ∧
   update_calls (events_of (main ticks) net s) = [] ∧
   (events_of (main ticks) net s = [] ∨
    events_of (main ticks) net s = [Call (discovery_request (globals s))])) ∧
  (required_present (globals s) = true →
   py_truthy (of_env (DOMAIN_NAME (globals s))) = true →
   ∃ rest, events_of (main ticks) net s = Call (discovery_request (globals s)) :: rest).
Proof.
  intros Hid. split.
  - intros Hnone.
    assert (∃ ls, main ticks net s = (Ok Exited, extend s [] ls) ∨
                  ∃ s', main ticks net s = (Ok Exited, s') ∧
                        trace s' = trace s ++ [Call (discovery_request (globals s))])
      as [ls Hrun].
    { destruct (required_present (globals s)) eqn:Hreq.
      2:{ destruct (main_missing_vars net s ticks Hreq) as [ls H]. eauto. }
      destruct (py_truthy (of_env (DOMAIN_NAME (globals s)))) eqn:Hdom.
      2:{ destruct (main_no_domain net s ticks Hreq Hid Hdom) as [ls H]. eauto. }
      destruct Hnone as [Hnone|Hnone]; [discriminate|].
      destruct (main_discovers net s ticks Hreq Hid Hdom) as [ls H].
      simpl in H. exists ls. right.
      rewrite (Hnone (discovered (discovery_outcome
                 (reply_at net s (discovery_request (globals s)))))) in H.
      - eexists. split; [exact H|]. reflexivity.
      - unfold run_result. by rewrite get_dns_record_id_run. }
    destruct Hrun as [Hrun|(s' & Hrun & Htrace)].
    + unfold run_result. rewrite (events_of_extend _ _ _ _ _ _ Hrun), Hrun.
      repeat split. by left.
    + unfold run_result. rewrite (events_of_trace _ _ _ _ _ _ Hrun Htrace), Hrun.
      repeat split. by right.
  - intros Hreq Hdom.
    destruct (main_discovers net s ticks Hreq Hid Hdom) as [ls H]. simpl in H.
    destruct (py_truthy _) in H.
    + destruct (main_loop_extends ticks net
        (set_DNS_RECORD_ID
           (discovered (discovery_outcome (reply_at net s (discovery_request (globals s)))))
           (extend s [Call (discovery_request (globals s))] ls)))
        as (r & evs & ls' & Hloop).
      rewrite Hloop in H. exists evs.
      eapply events_of_trace; [exact H|]. simpl. by rewrite <- app_assoc.
    + exists []. eapply events_of_trace; [exact H|]. reflexivity.
Qed.

Lemma startup_without_record_id_witness :
  (run_result (main 5) net_no_match (start globals_without_id) = Ok Exited ∧
   echo_calls (events_of (main 5) net_no_match (start globals_without_id)) = [] ∧
   read_calls (events_of (main 5) net_no_match (start globals_without_id)) = [] ∧
   update_calls (events_of (main 5) net_no_match (start globals_without_id)) = [] ∧
   (events_of (main 5) net_no_match (start globals_without_id) = [] ∨
    events_of (main 5) net_no_match (start globals_without_id) =
      [Call (discovery_request globals_without_id)])) ∧
  (∃ rest, events_of (main 5) net_no_match (start globals_without_id) =
           Call (discovery_request globals_without_id) :: rest).
Proof.
  destruct (startup_without_record_id net_no_match (start globals_without_id) 5)
    as [Hexit Hfirst]; [reflexivity|].
  split.
  - apply Hexit. right. intros v Hv. vm_compute in Hv.
    injection Hv as <-. reflexivity.
  - apply Hfirst; reflexivity.
Defined.

(** C6. Record discovery, given a zone, a domain name and a record type,
    makes one call, the list call filtered by that name and type.  It
    returns the identifier of the first record of the listed result when
    the answer is 200, reports success and lists at least one record; it
    returns None, not an identifier, when the list is empty, when the
    provider reports no success, when the status is not 200, and when the
    transport fails. *)
Theorem get_dns_record_id_first_match net s zone_id domain_name record_type :
  let req := list_request (globals s) zone_id domain_name record_type in
  let reply := reply_at net s req in
  let returned := run_result (get_dns_record_id zone_id domain_name record_type) net s in
  events_of (get_dns_record_id zone_id domain_name record_type) net s = [Call req] ∧
  method req = GET ∧ url req = dns_records_url zone_id ∧
  params req = {[ "name" := domain_name; "type" := record_type ]} ∧
  (∀ resp body ok record rest record_id,
     reply = Answer resp → status_code resp = 200 → json_body resp = Some (JObj body) →
     body !! "success" = Some ok → py_truthy ok = true →
     body !! "result" = Some (JList (JObj record :: rest)) →
     record !! "id" = Some record_id →
     returned = Ok record_id) ∧
  (∀ resp body,
     reply = Answer resp → status_code resp = 200 → json_body resp = Some (JObj body) →
     body !! "result" = Some (JList []) →
     returned = Ok JNull) ∧
  (∀ resp body,
     reply = Answer resp → status_code resp = 200 → json_body resp = Some (JObj body) →
     py_truthy (default JNull (body !! "success")) = false →
     returned = Ok JNull) ∧
  (∀ resp, reply = Answer resp → status_code resp ≠ 200 → returned = Ok JNull) ∧
  (∀ msg, reply = ConnectionFailed msg → returned = Ok JNull).
Proof.
  simpl. unfold run_result.
  pose proof (get_dns_record_id_run net s zone_id domain_name record_type) as Hrun.
  simpl in Hrun. rewrite Hrun, (events_of_extend _ _ _ _ _ _ Hrun). simpl.
  split; [done|]. split; [done|]. split; [done|]. split; [done|].
  unfold discovery_outcome. repeat split.
  - intros resp body ok record rest record_id -> Hst Hj Hok Htrue Hres Hid.
    rewrite Hst, Hj, Hok, Hres. simpl. rewrite Htrue. simpl. by rewrite Hid.
  - intros resp body -> Hst Hj Hres.
    rewrite Hst, Hj, Hres. simpl. by rewrite andb_false_r.
  - intros resp body -> Hst Hj Hfalse.
    rewrite Hst, Hj. simpl. by rewrite Hfalse.
  - intros resp -> Hst. apply Z.eqb_neq in Hst. by rewrite Hst.
  - by intros msg ->.
Qed.

Lemma get_dns_record_id_first_match_witness :
  run_result (get_dns_record_id (JStr "zone1") (JStr "x.example.com") (JStr "A"))
    (net_listing (Answer (json_response 200 (list_body two_records))))
    (start globals_without_id) = Ok (JStr "abc123") ∧
  run_result (get_dns_record_id (JStr "zone1") (JStr "x.example.com") (JStr "A"))
    (net_listing (Answer (json_response 200 (list_body []))))
    (start globals_without_id) = Ok JNull ∧
  run_result (get_dns_record_id (JStr "zone1") (JStr "x.example.com") (JStr "A"))
    (net_listing (Answer (json_response 200
       (JObj {[ "success" := JBool false; "result" := JList two_records ]}))))
    (start globals_without_id) = Ok JNull ∧
  run_result (get_dns_record_id (JStr "zone1") (JStr "x.example.com") (JStr "A"))
    (net_listing (Answer (text_response 500 "Internal Server Error")))
    (start globals_without_id) = Ok JNull ∧
  run_result (get_dns_record_id (JStr "zone1") (JStr "x.example.com") (JStr "A"))
    (net_listing (ConnectionFailed "timed out"))
    (start globals_without_id) = Ok JNull.
Proof.
  split; [|split; [|split; [|split]]].
  - destruct (get_dns_record_id_first_match
                (net_listing (Answer (json_response 200 (list_body two_records))))
                (start globals_without_id) (JStr "zone1") (JStr "x.example.com") (JStr "A"))
      as (_ & _ & _ & _ & Hfound & _).
    eapply Hfound; reflexivity.
  - destruct (get_dns_record_id_first_match
                (net_listing (Answer (json_response 200 (list_body []))))
                (start globals_without_id) (JStr "zone1") (JStr "x.example.com") (JStr "A"))
      as (_ & _ & _ & _ & _ & Hempty & _).
    eapply Hempty; reflexivity.
  - destruct (get_dns_record_id_first_match
                (net_listing (Answer (json_response 200
                   (JObj {[ "success" := JBool false; "result" := JList two_records ]}))))
                (start globals_without_id) (JStr "zone1") (JStr "x.example.com") (JStr "A"))
      as (_ & _ & _ & _ & _ & _ & Hrefused & _).
    eapply Hrefused; reflexivity.
  - destruct (get_dns_record_id_first_match
                (net_listing (Answer (text_response 500 "Internal Server Error")))
                (start globals_without_id) (JStr "zone1") (JStr "x.example.com") (JStr "A"))
      as (_ & _ & _ & _ & _ & _ & _ & Hstatus & _).
    eapply Hstatus; [reflexivity|]. vm_compute. discriminate.
  - destruct (get_dns_record_id_first_match
                (net_listing (ConnectionFailed "timed out"))
                (start globals_without_id) (JStr "zone1") (JStr "x.example.com") (JStr "A"))
      as (_ & _ & _ & _ & _ & _ & _ & _ & Hconn).
    eapply Hconn; reflexivity.
Defined.

(** C7. The update operation returns failure when the HTTP status is not
    200 and also when the status is 200 but the body reports no success; it
    returns success exactly when the status is 200 and the body reports
    success (with a boolean success field it returns that boolean).  The
    two failures are logged with different detail: the status and the
    response text for the first, the parsed result for the second. *)
Theorem update_reports_both_failures net s ip :
  let reply := reply_at net s (update_request (globals s) ip) in
  let returned := run_result (update_cloudflare_dns_record ip) net s in
  let logged := logged_by (update_cloudflare_dns_record ip) net s in
  (∀ resp,
     reply = Answer resp → status_code resp ≠ 200 →
     returned = Ok false ∧
     logged = [error [Lit "Failed to update DNS record: "; Val (JInt (status_code resp));
                      Lit " - "; Val (JStr (text resp))]]) ∧
  (∀ msg,
     reply = ConnectionFailed msg →
     returned = Ok false ∧
     logged = [error [Lit "Error updating Cloudflare DNS record: ";
                      StrExc (RequestException msg)]]) ∧
  (∀ resp body,
     reply = Answer resp → status_code resp = 200 → json_body resp = Some (JObj body) →
     py_truthy (default JNull (body !! "success")) = false →
     returned = Ok false ∧
     logged = [error [Lit "API returned success=false: "; Val (JObj body)]]) ∧
  (∀ resp body b,
     reply = Answer resp → status_code resp = 200 → json_body resp = Some (JObj body) →
     body !! "success" = Some (JBool b) →
     returned = Ok b) ∧
  (returned = Ok true ↔
   ∃ resp body,
     reply = Answer resp ∧ status_code resp = 200 ∧ json_body resp = Some (JObj body) ∧
     py_truthy (default JNull (body !! "success")) = true) ∧
  (∀ resp body,
     error [Lit "Failed to update DNS record: "; Val (JInt (status_code resp));
            Lit " - "; Val (JStr (text resp))] ≠
     error [Lit "API returned success=false: "; Val (JObj body)]).
Proof.
  simpl. unfold run_result.
  pose proof (update_cloudflare_dns_record_run net s ip) as Hrun. simpl in Hrun.
  rewrite Hrun, (logged_by_extend _ _ _ _ _ _ Hrun). simpl.
  unfold update_outcome.
  split; [|split; [|split; [|split; [|split; [split|]]]]].
  - intros resp -> Hst. apply Z.eqb_neq in Hst. by rewrite Hst.
  - by intros msg ->.
  - intros resp body -> Hst Hj Hok. rewrite Hst, Hj. simpl. by rewrite Hok.
  - intros resp body b -> Hst Hj Hb. rewrite Hst, Hj, Hb. simpl. by destruct b.
  - destruct (reply_at net s (update_request (globals s) ip)) as [msg|resp]; [discriminate|].
    destruct (status_code resp =? 200) eqn:Hst; [|discriminate].
    destruct (json_body resp) as [v|] eqn:Hj; [|discriminate].
    destruct v; try discriminate.
    destruct (py_truthy (default JNull (m !! "success"))) eqn:Hok; [|discriminate].
    intros _. exists resp, m. by apply Z.eqb_eq in Hst.
  - intros (resp & body & -> & Hst & Hj & Hok). rewrite Hst, Hj. simpl. by rewrite Hok.
  - intros resp body. discriminate.
Qed.

Lemma update_reports_both_failures_witness :
  (run_result (update_cloudflare_dns_record "1.2.3.4")
     (net_updating (Answer (text_response 500 "Internal Server Error")))
     (start sample_globals) = Ok false ∧
   logged_by (update_cloudflare_dns_record "1.2.3.4")
     (net_updating (Answer (text_response 500 "Internal Server Error")))
     (start sample_globals) =
     [error [Lit "Failed to update DNS record: "; Val (JInt 500);
             Lit " - "; Val (JStr "Internal Server Error")]]) ∧
  (run_result (update_cloudflare_dns_record "1.2.3.4")
     (net_updating (ConnectionFailed "timed out")) (start sample_globals) = Ok false ∧
   logged_by (update_cloudflare_dns_record "1.2.3.4")
     (net_updating (ConnectionFailed "timed out")) (start sample_globals) =
     [error [Lit "Error updating Cloudflare DNS record: ";
             StrExc (RequestException "timed out")]]) ∧
  (run_result (update_cloudflare_dns_record "1.2.3.4")
     (net_updating (Answer (json_response 200 (JObj {[ "success" := JBool false ]}))))
     (start sample_globals) = Ok false ∧
   logged_by (update_cloudflare_dns_record "1.2.3.4")
     (net_updating (Answer (json_response 200 (JObj {[ "success" := JBool false ]}))))
     (start sample_globals) =
     [error [Lit "API returned success=false: "; Val (JObj {[ "success" := JBool false ]})]]) ∧
  run_result (update_cloudflare_dns_record "1.2.3.4")
    (net_updating (Answer (json_response 200 ok_body))) (start sample_globals) = Ok true ∧
  run_result (update_cloudflare_dns_record "1.2.3.4")
    (net_updating (Answer (json_response 200 ok_body))) (start sample_globals) = Ok true.
Proof.
  split; [|split; [|split; [|split]]].
  - destruct (update_reports_both_failures
                (net_updating (Answer (text_response 500 "Internal Server Error")))
                (start sample_globals) "1.2.3.4") as (Hhttp & _).
    apply (Hhttp (text_response 500 "Internal Server Error")); [reflexivity|].
    vm_compute. discriminate.
  - destruct (update_reports_both_failures
                (net_updating (ConnectionFailed "timed out"))
                (start sample_globals) "1.2.3.4") as (_ & Hconn & _).
    apply (Hconn "timed out"). reflexivity.
  - destruct (update_reports_both_failures
                (net_updating (Answer (json_response 200 (JObj {[ "success" := JBool false ]}))))
                (start sample_globals) "1.2.3.4") as (_ & _ & Hlogical & _).
    apply (Hlogical (json_response 200 (JObj {[ "success" := JBool false ]}))
                    {[ "success" := JBool false ]}); reflexivity.
  - destruct (update_reports_both_failures
                (net_updating (Answer (json_response 200 ok_body)))
                (start sample_globals) "1.2.3.4") as (_ & _ & _ & Hbool & _).
    apply (Hbool (json_response 200 ok_body) {[ "success" := JBool true ]} true);
      reflexivity.
  - destruct (update_reports_both_failures
                (net_updating (Answer (json_response 200 ok_body)))
                (start sample_globals) "1.2.3.4") as (_ & _ & _ & _ & Hok & _).
    apply Hok. exists (json_response 200 ok_body), {[ "success" := JBool true ]}.
    repeat split.
Defined.

(** ** The update body: claim C8 *)

(** C8, as stated, fails.  Configured with record "abc123" and no domain
    name, echo at 1.2.3.4 and the record read with content 1.2.3.3, name
    home.example.com, ttl 120 and proxied on: the one update call carries
    content 1.2.3.4 but name None, ttl 3600 and proxied off, so the
    record's other fields are not left as they were. *)
Lemma others_unchanged_counterexample :
  ∃ body,
    map payload (update_calls (pass_events net_scenario (start globals_id_only))) =
      [Some (JObj body)] ∧
    body !! "content" = Some (JStr "1.2.3.4") ∧
    body !! "name" = Some JNull ∧
    published_record !! "name" = Some (JStr "home.example.com") ∧
    body !! "ttl" = Some (JInt 3600) ∧
    published_record !! "ttl" = Some (JInt 120) ∧
    body !! "proxied" = Some (JBool false) ∧
    published_record !! "proxied" = Some (JBool true) ∧
    ¬ keeps_other_fields published_record body.
Proof.
  exists (update_data globals_id_only "1.2.3.4").
  repeat split; try reflexivity.
  intros Hkeep. specialize (Hkeep "ttl"). 
  assert ("ttl" ∈ ["type"; "name"; "ttl"; "proxied"]) as Hin by set_solver.
  apply Hkeep in Hin. vm_compute in Hin. discriminate.
Qed.

(** C8, amended.  Configured with record "abc123" and no domain name, when
    the echo returns 1.2.3.4 and the record read returns content 1.2.3.3,
    exactly one update call is issued, to record "abc123", with content
    1.2.3.4 and with type, ttl and proxied taken from the configuration,
    whatever the record read holds in those fields. *)
Theorem update_carries_configuration net s dns_record record :
  DNS_RECORD_ID (globals s) = JStr "abc123" →
  DOMAIN_NAME (globals s) = None →
  resolves (echo_reply net s) "1.2.3.4" →
  reads (read_reply net s) (JObj dns_record) →
  dns_record !! "result" = Some (JObj record) →
  record !! "content" = Some (JStr "1.2.3.3") →
  ∃ r body,
    update_calls (pass_events net s) = [r] ∧
    method r = PUT ∧
    url r = [Lit "https://api.cloudflare.com/client/v4/zones/"; Val (of_env (ZONE_ID (globals s)));
             Lit "/dns_records/"; Val (JStr "abc123")] ∧
    payload r = Some (JObj body) ∧
    body !! "content" = Some (JStr "1.2.3.4") ∧
    body !! "type" = Some (JStr (RECORD_TYPE (globals s))) ∧
    body !! "ttl" = Some (JInt (TTL (globals s))) ∧
    body !! "proxied" = Some (JBool (PROXIED (globals s))).
Proof.
  intros Hid Hdom Hip Hread Hres Hcontent.
  exists (update_request (globals s) "1.2.3.4"), (update_data (globals s) "1.2.3.4").
  assert (pass_events net s =
          [Call echo_request; Call (read_request (globals s));
           Call (update_request (globals s) "1.2.3.4")]) as ->.
  { unfold pass_events. eapply events_of_extend.
    apply (check_and_update_differs _ _ _ _ (JStr "1.2.3.3") Hip Hread).
    - by eapply nonempty_truthy.
    - rewrite (extract_content_result _ _ Hres). by rewrite Hcontent.
    - reflexivity. }
  split; [reflexivity|]. split; [reflexivity|].
  split; [simpl; unfold dns_record_url; by rewrite Hid|].
  split; [reflexivity|].
  unfold update_data. repeat split; by simplify_map_eq.
Qed.

Lemma update_carries_configuration_witness :
  ∃ r body,
    update_calls (pass_events net_scenario (start globals_id_only)) = [r] ∧
    method r = PUT ∧
    url r = [Lit "https://api.cloudflare.com/client/v4/zones/"; Val (JStr "zone1");
             Lit "/dns_records/"; Val (JStr "abc123")] ∧
    payload r = Some (JObj body) ∧
    body !! "content" = Some (JStr "1.2.3.4") ∧
    body !! "type" = Some (JStr "A") ∧
    body !! "ttl" = Some (JInt 3600) ∧
    body !! "proxied" = Some (JBool false).
Proof.
  apply (update_carries_configuration net_scenario (start globals_id_only)
           {[ "success" := JBool true; "result" := JObj published_record ]}
           published_record).
  - reflexivity.
  - reflexivity.
  - eexists. split; [reflexivity|]. split; reflexivity.
  - eexists. split; [reflexivity|]. split; reflexivity.
  - reflexivity.
  - reflexivity.
Defined.

(** ** Errors inside a pass: claim C9 *)

(** C9. Whatever happens inside a pass, the pass returns: a failure to
    resolve, to read or to update is caught and leaves an ERROR line as the
    last line the pass logs.  So the loop goes on to the next tick: once
    startup has a record identifier, configured or discovered, and as long
    as [time.sleep(CHECK_INTERVAL)] itself returns, the process observed
    for any number of ticks has run that many passes and is still looping,
    whatever the network answered to the calls of the passes. *)
Theorem pass_errors_never_stop_the_loop net s :
  (∃ evs ls, check_and_update net s = (Ok tt, extend s evs ls)) ∧
  (http_fails (echo_reply net s) →
   ∃ e, last (logged_by check_and_update net s) =
        Some (error [Lit "Error in check_and_update: "; StrExc e])) ∧
  (∀ ip,
     resolves (echo_reply net s) ip → read_fails (read_reply net s) →
     last (logged_by check_and_update net s) =
       Some (error [Lit "Failed to retrieve DNS record. Skipping update."])) ∧
  (∀ ip dns_record cf_ip,
     resolves (echo_reply net s) ip → reads (read_reply net s) dns_record →
     py_truthy dns_record = true → extract_content dns_record = Ok cf_ip →
     str_ne ip cf_ip = true → update_fails (update_reply net s ip) →
     last (logged_by check_and_update net s) =
       Some (error [Lit "Failed to update DNS record"])) ∧
  (required_present (globals s) = true →
   py_truthy (DNS_RECORD_ID (globals s)) = true ∨
   (py_truthy (of_env (DOMAIN_NAME (globals s))) = true ∧
    ∃ record_id,
      run_result (get_dns_record_id (of_env (ZONE_ID (globals s)))
                    (of_env (DOMAIN_NAME (globals s)))
                    (JStr (RECORD_TYPE (globals s)))) net s = Ok record_id ∧
      py_truthy record_id = true) →
   sleep_returns s (CHECK_INTERVAL (globals s)) →
   ∀ ticks,
     run_result (main ticks) net s = Ok Looping ∧
     List.length (echo_calls (events_of (main ticks) net s)) = ticks).
Proof.
  split; [apply check_and_update_total|].
  split.
  { intros H. destruct (check_and_update_echo_fails net s H) as [e He].
    exists e. by rewrite (logged_by_extend _ _ _ _ _ _ He). }
  split.
  { intros ip Hip Hread.
    destruct (check_and_update_read_fails net s ip Hip Hread) as [msg Hrun].
    by rewrite (logged_by_extend _ _ _ _ _ _ Hrun). }
  split.
  { intros ip dns_record cf_ip Hip Hread Ht Hcf Hne Hfail.
    pose proof (check_and_update_differs _ _ _ _ _ Hip Hread Ht Hcf Hne) as Hrun.
    simpl in Hrun. rewrite (update_fails_not_accepted _ Hfail) in Hrun.
    by rewrite (logged_by_extend _ _ _ _ _ _ Hrun). }
  intros Hreq Hstart Hsleep ticks.
  destruct (py_truthy (DNS_RECORD_ID (globals s))) eqn:Hid.
  - destruct (main_loop_keeps_going ticks net
      (extend s [] [info [Lit "Starting Cloudflare Dynamic DNS updater"]]))
      as (evs & ls & Hloop & Hcount); [by apply sleep_returns_extend|].
    pose proof (main_with_record_id net s ticks Hreq Hid) as Hmain.
    rewrite Hloop, extend_extend in Hmain.
    unfold run_result. rewrite (events_of_extend _ _ _ _ _ _ Hmain), Hmain.
    split; [reflexivity|]. exact Hcount.
  - destruct Hstart as [Hstart|(Hdom & record_id & Hfound & Htruthy)]; [discriminate|].
    destruct (main_discovers net s ticks Hreq Hid Hdom) as [ls Hmain]. simpl in Hmain.
    unfold run_result in Hfound. rewrite get_dns_record_id_run in Hfound.
    simpl in Hfound. injection Hfound as Hfound.
    fold (discovery_request (globals s)) in Hfound.
    rewrite Hfound, Htruthy in Hmain.
    destruct (main_loop_keeps_going ticks net
      (set_DNS_RECORD_ID record_id (extend s [Call (discovery_request (globals s))] ls)))
      as (evs & ls' & Hloop & Hcount).
    { by apply sleep_returns_after_discovery, sleep_returns_extend. }
    rewrite Hloop in Hmain.
    unfold run_result. rewrite Hmain. split; [reflexivity|].
    erewrite events_of_trace; [|exact Hmain|simpl; by rewrite <- app_assoc].
    exact Hcount.
Qed.

Lemma pass_errors_never_stop_the_loop_witness :
  (∃ e, last (logged_by check_and_update net_echo_down (start sample_globals)) =
        Some (error [Lit "Error in check_and_update: "; StrExc e])) ∧
  last (logged_by check_and_update net_read_denied (start sample_globals)) =
    Some (error [Lit "Failed to retrieve DNS record. Skipping update."]) ∧
  last (logged_by check_and_update net_update_rejected (start sample_globals)) =
    Some (error [Lit "Failed to update DNS record"]) ∧
  (run_result (main 4) net_dead (start sample_globals) = Ok Looping ∧
   List.length (echo_calls (events_of (main 4) net_dead (start sample_globals))) = 4%nat) ∧
  (run_result (main 4) net_found (start globals_without_id) = Ok Looping ∧
   List.length (echo_calls (events_of (main 4) net_found (start globals_without_id))) = 4%nat).
Proof.
  split; [|split; [|split; [|split]]].
  - destruct (pass_errors_never_stop_the_loop net_echo_down (start sample_globals))
      as (_ & Hecho & _).
    apply Hecho. vm_compute. discriminate.
  - destruct (pass_errors_never_stop_the_loop net_read_denied (start sample_globals))
      as (_ & _ & Hread & _).
    apply (Hread "1.2.3.4").
    + eexists. split; [reflexivity|]. split; reflexivity.
    + left. vm_compute. discriminate.
  - destruct (pass_errors_never_stop_the_loop net_update_rejected (start sample_globals))
      as (_ & _ & _ & Hupdate & _).
    apply (Hupdate "1.2.3.4" (record_body (JStr "1.2.3.3")) (JStr "1.2.3.3")).
    + eexists. split; [reflexivity|]. split; reflexivity.
    + eexists. split; [reflexivity|]. split; reflexivity.
    + reflexivity.
    + reflexivity.
    + reflexivity.
    + right. right. exists {[ "success" := JBool false ]}. split; reflexivity.
  - destruct (pass_errors_never_stop_the_loop net_dead (start sample_globals))
      as (_ & _ & _ & _ & Hloop).
    apply Hloop; [reflexivity|by left|].
    split; [unfold sleep_limit; simpl; lia|reflexivity].
  - destruct (pass_errors_never_stop_the_loop net_found (start globals_without_id))
      as (_ & _ & _ & _ & Hloop).
    apply Hloop; [reflexivity| |].
    + right. split; [reflexivity|]. exists (JStr "abc123"). split; reflexivity.
    + split; [unfold sleep_limit; simpl; lia|reflexivity].
Defined.

(** ** A read without result.content: claim C10 *)

(** C10, as stated, fails.  The read answers 200 with success false and a
    null result, a body without result.content: [.get] on None raises, the
    pass logs the error and ends after the read, and no update call is
    issued.  The same holds for the empty body [{}], which the pass takes
    for a failed read. *)
Lemma content_missing_counterexample :
  (resolves (echo_reply net_result_null (start sample_globals)) "1.2.3.4" ∧
   reads (read_reply net_result_null (start sample_globals)) body_result_null ∧
   has_result_content body_result_null = false ∧
   extract_content body_result_null = Raised AttributeError ∧
   pass_events net_result_null (start sample_globals) =
     [Call echo_request; Call (read_request sample_globals)] ∧
   update_calls (pass_events net_result_null (start sample_globals)) = []) ∧
  (resolves (echo_reply net_empty_body (start sample_globals)) "1.2.3.4" ∧
   reads (read_reply net_empty_body (start sample_globals)) (JObj ∅) ∧
   has_result_content (JObj ∅) = false ∧
   py_truthy (JObj ∅) = false ∧
   pass_events net_empty_body (start sample_globals) =
     [Call echo_request; Call (read_request sample_globals)] ∧
   update_calls (pass_events net_empty_body (start sample_globals)) = []).
Proof.
  split.
  - split; [eexists; split; [reflexivity|]; split; reflexivity|].
    split; [eexists; split; [reflexivity|]; split; reflexivity|].
    repeat split.
  - split; [eexists; split; [reflexivity|]; split; reflexivity|].
    split; [eexists; split; [reflexivity|]; split; reflexivity|].
    repeat split.
Qed.

(** C10, amended.  If the record read returns 200 with a body that is a
    non-empty object whose result is absent, or is an object without a
    content field, the pass takes the read for successful with a published
    IP of None; the resolved IP, a string, differs from None, and one
    update call is issued with the resolved IP. *)
Theorem update_issued_when_content_missing net s ip body :
  resolves (echo_reply net s) ip →
  reads (read_reply net s) (JObj body) →
  body ≠ ∅ →
  (body !! "result" = None ∨
   ∃ record, body !! "result" = Some (JObj record) ∧ record !! "content" = None) →
  py_truthy (JObj body) = true ∧
  extract_content (JObj body) = Ok JNull ∧
  str_ne ip JNull = true ∧
  ∃ r data,
    update_calls (pass_events net s) = [r] ∧
    payload r = Some (JObj data) ∧
    data !! "content" = Some (JStr ip).
Proof.
  intros Hip Hread Hne Hres.
  assert (py_truthy (JObj body) = true) as Ht.
  { simpl. destruct (size body) eqn:Hsize; [|done].
    by apply map_size_empty_iff in Hsize. }
  assert (extract_content (JObj body) = Ok JNull) as Hcf.
  { unfold extract_content. simpl.
    destruct Hres as [->|(record & -> & Hc)]; simpl; [by rewrite lookup_empty|by rewrite Hc]. }
  split; [done|]. split; [done|]. split; [done|].
  exists (update_request (globals s) ip), (update_data (globals s) ip).
  assert (pass_events net s =
          [Call echo_request; Call (read_request (globals s));
           Call (update_request (globals s) ip)]) as ->.
  { unfold pass_events. eapply events_of_extend.
    by apply (check_and_update_differs _ _ _ _ JNull Hip Hread Ht Hcf). }
  split; [reflexivity|]. split; [reflexivity|].
  unfold update_data. by simplify_map_eq.
Qed.

Lemma update_issued_when_content_missing_witness :
  py_truthy (JObj {[ "success" := JBool false ]}) = true ∧
  extract_content (JObj {[ "success" := JBool false ]}) = Ok JNull ∧
  str_ne "1.2.3.4" JNull = true ∧
  ∃ r data,
    update_calls (pass_events net_no_result (start sample_globals)) = [r] ∧
    payload r = Some (JObj data) ∧
    data !! "content" = Some (JStr "1.2.3.4").
Proof.
  apply (update_issued_when_content_missing net_no_result (start sample_globals) "1.2.3.4"
           {[ "success" := JBool false ]}).
  - eexists. split; [reflexivity|]. split; reflexivity.
  - eexists. split; [reflexivity|]. split; reflexivity.
  - intros H. apply (f_equal (λ m, m !! "success")) in H. vm_compute in H. discriminate.
  - left. reflexivity.
Defined.

(** * Further properties of the script *)

(** ** Startup with settings missing *)

Lemma truthy_of_env_false o : py_truthy (of_env o) = false ↔ unset o.
Proof.
  unfold unset. destruct o as [str|]; simpl.
  - rewrite negb_false_iff, String.eqb_eq. split; [intros ->; by right|].
    intros [H|H]; [discriminate|by injection H].
  - split; [by left|done].
Qed.

Lemma required_present_false g :
  required_present g = false ↔ unset (CF_API_TOKEN g) ∨ unset (ZONE_ID g).
Proof.
  unfold required_present. rewrite andb_false_iff.
  by rewrite !truthy_of_env_false.
Qed.

Lemma main_missing_vars_run net s ticks :
  required_present (globals s) = false →
  main ticks net s =
    (Ok Exited,
     extend s []
       [info [Lit "Starting Cloudflare Dynamic DNS updater"];
        error [Lit "Missing required environment variables: ";
               Val (JStr (String.concat ", " (missing_names (globals s))))];
        error [Lit "Please check your .env file and try again"]]).
Proof.
  unfold required_present, missing_names. intros H.
  unfold main. unfold bind at 1. rewrite logger_info_run.
  unfold bind at 1, read_globals. simpl. rewrite getenv_token, getenv_zone.
  destruct (py_truthy (of_env (CF_API_TOKEN (globals s)))),
           (py_truthy (of_env (ZONE_ID (globals s)))); try discriminate;
    by finish.
Qed.

(** X1. When the API token or the zone identifier is unset or empty, [main]
    returns at once: it makes no network call at all, also when a record
    identifier is configured, and it logs the names of the settings that
    are missing, joined by a comma. *)
Theorem missing_settings_stop_startup net s ticks :
  unset (CF_API_TOKEN (globals s)) ∨ unset (ZONE_ID (globals s)) →
  run_result (main ticks) net s = Ok Exited ∧
  events_of (main ticks) net s = [] ∧
  logged_by (main ticks) net s =
    [info [Lit "Starting Cloudflare Dynamic DNS updater"];
     error [Lit "Missing required environment variables: ";
            Val (JStr (String.concat ", "
                   ((if py_truthy (of_env (CF_API_TOKEN (globals s))) then []
                     else ["CLOUDFLARE_API_TOKEN"]) ++
                    (if py_truthy (of_env (ZONE_ID (globals s))) then []
                     else ["ZONE_ID"]))))];
     error [Lit "Please check your .env file and try again"]].
Proof.
  intros H%required_present_false.
  pose proof (main_missing_vars_run net s ticks H) as Hrun.
  unfold run_result.
  rewrite (events_of_extend _ _ _ _ _ _ Hrun), (logged_by_extend _ _ _ _ _ _ Hrun), Hrun.
  done.
Qed.

Lemma missing_settings_stop_startup_witness :
  run_result (main 3) net_changed (start globals_empty_token) = Ok Exited ∧
  events_of (main 3) net_changed (start globals_empty_token) = [] ∧
  logged_by (main 3) net_changed (start globals_empty_token) =
    [info [Lit "Starting Cloudflare Dynamic DNS updater"];
     error [Lit "Missing required environment variables: ";
            Val (JStr "CLOUDFLARE_API_TOKEN")];
     error [Lit "Please check your .env file and try again"]].
Proof.
  apply (missing_settings_stop_startup net_changed (start globals_empty_token) 3).
  left. right. reflexivity.
Defined.

(** ** The events of a pass and of the loop *)

Lemma check_and_update_pass_shape net s :
  ∃ p ls, check_and_update net s = (Ok tt, extend s p ls) ∧ pass_shape (globals s) p.
Proof.
  destruct (check_and_update_events net s) as (rest & ls & Hrun & Hrest).
  exists (Call echo_request :: rest), ls. split; [done|].
  destruct Hrest as [->|[->|[ip ->]]]; [by left|right; by left|right; right; by exists ip].
Qed.

Lemma pass_shape_loop_events g p : pass_shape g p → Forall (loop_event g) p.
Proof.
  intros [->|[->|[ip ->]]];
    repeat (apply List.Forall_cons; [unfold loop_event; eauto 6|]); apply List.Forall_nil.
Qed.

Lemma pass_shape_one_echo g p : pass_shape g p → List.length (echo_calls p) = 1%nat.
Proof. by intros [->|[->|[ip ->]]]. Qed.

Lemma pass_shape_no_list g p : pass_shape g p → list_calls p = [].
Proof. by intros [->|[->|[ip ->]]]. Qed.

(** Whatever the sleep length, the loop adds events of the four kinds only
    and leaves the globals alone. *)
Lemma reconcile_loop_events ticks net s :
  ∃ r evs ls,
    reconcile_loop ticks net s = (r, extend s evs ls) ∧
    Forall (loop_event (globals s)) evs.
Proof.
  revert s. induction ticks as [|n IH]; intros s.
  - exists (Ok Looping), [], []. by rewrite extend_nil.
  - destruct (check_and_update_pass_shape net s) as (p & ls & Hpass & Hshape).
    simpl. rewrite (bind_ok _ _ _ _ _ _ Hpass).
    unfold bind at 1, read_globals. simpl.
    unfold bind at 1.
    destruct (time_sleep_total (CHECK_INTERVAL (globals s)) net (extend s p ls))
      as [Hsleep|[e Hsleep]]; rewrite Hsleep.
    2:{ eexists _, _, _. split; [reflexivity|]. by apply pass_shape_loop_events. }
    rewrite extend_extend.
    destruct (IH (extend s (p ++ [Sleep (CHECK_INTERVAL (globals s))]) (ls ++ [])))
      as (r & evs' & ls' & Hloop & Hevs).
    rewrite Hloop, extend_extend.
    eexists _, _, _. split; [reflexivity|].
    rewrite !Forall_app. split; [split|done].
    + by apply pass_shape_loop_events.
    + apply List.Forall_cons; [|apply List.Forall_nil]. unfold loop_event. eauto 6.
Qed.

Lemma main_loop_events ticks net s :
  ∃ r evs ls,
    main_loop ticks net s = (r, extend s evs ls) ∧
    Forall (loop_event (globals s)) evs.
Proof.
  unfold main_loop. unfold bind at 1, read_globals. simpl.
  unfold bind at 1. rewrite logger_info_run.
  destruct (reconcile_loop_events ticks net
    (extend s [] [info [Lit "Will check for IP changes every ";
                        Val (JInt (CHECK_INTERVAL (globals s))); Lit " seconds"]]))
    as ([st|e] & evs & ls & Hloop & Hevs); unfold info in Hloop.
  - erewrite try_except_ok by exact Hloop.
    rewrite extend_extend. eexists _, _, _. split; [reflexivity|done].
  - erewrite try_except_raised by exact Hloop.
    unfold bind. rewrite logger_error_run. unfold ret.
    rewrite !extend_extend. eexists _, _, _. split; [reflexivity|].
    by rewrite !app_nil_r.
Qed.

Lemma loop_event_no_list g evs : Forall (loop_event g) evs → list_calls evs = [].
Proof.
  induction 1 as [|e evs He _ IH]; [done|].
  unfold list_calls in *. 
  destruct He as [->|[->|[[ip ->]| ->]]]; simpl; exact IH.
Qed.

(** X2. With the required settings and a record identifier configured,
    [main] never calls the list endpoint, whether or not a domain name is
    set: every event of the run is an echo call, a read or an update of the
    configured record, or a sleep of the configured length, and the
    globals, the record identifier among them, stay as configured. *)
Theorem configured_record_id_skips_discovery net s ticks :
  required_present (globals s) = true →
  py_truthy (DNS_RECORD_ID (globals s)) = true →
  list_calls (events_of (main ticks) net s) = [] ∧
  Forall (loop_event (globals s)) (events_of (main ticks) net s) ∧
  globals (run_state (main ticks) net s) = globals s.
Proof.
  intros Hreq Hid.
  pose proof (main_with_record_id net s ticks Hreq Hid) as Hmain.
  destruct (main_loop_events ticks net
    (extend s [] [info [Lit "Starting Cloudflare Dynamic DNS updater"]]))
    as (r & evs & ls & Hloop & Hevs).
  rewrite Hloop, extend_extend in Hmain.
  unfold run_state. rewrite (events_of_extend _ _ _ _ _ _ Hmain), Hmain. simpl.
  split; [by eapply loop_event_no_list|]. split; [exact Hevs|reflexivity].
Qed.

Lemma configured_record_id_skips_discovery_witness :
  list_calls (events_of (main 3) net_changed (start sample_globals)) = [] ∧
  Forall (loop_event sample_globals) (events_of (main 3) net_changed (start sample_globals)) ∧
  globals (run_state (main 3) net_changed (start sample_globals)) = sample_globals.
Proof.
  apply (configured_record_id_skips_discovery net_changed (start sample_globals) 3);
    reflexivity.
Defined.

Lemma globals_after_discovery v s evs ls :
  globals (set_DNS_RECORD_ID v (extend s evs ls)) = globals (set_DNS_RECORD_ID v s).
Proof. reflexivity. Qed.

Lemma loop_event_record_url g evs r :
  Forall (loop_event g) evs → Call r ∈ evs → targets_record r = true →
  url r = dns_record_url g.
Proof.
  intros Hevs Hin Htarget. rewrite Forall_forall in Hevs.
  destruct (Hevs _ Hin) as [H|[H|[[ip H]|H]]]; try discriminate.
  - injection H as ->. discriminate.
  - by injection H as ->.
  - by injection H as ->.
Qed.

Lemma extend_same_events s e1 l1 e2 l2 :
  extend s e1 l1 = extend s e2 l2 → e1 = e2.
Proof. intros [= H _]. by apply app_inv_head in H. Qed.

(** Once in the loop, the first pass runs: the loop's first event is the
    echo call. *)
Lemma reconcile_loop_first_pass ticks net s :
  ∃ r rest ls,
    reconcile_loop (S ticks) net s = (r, extend s (Call echo_request :: rest) ls).
Proof.
  destruct (check_and_update_events net s) as (rest & ls & Hpass & _).
  simpl. rewrite (bind_ok _ _ _ _ _ _ Hpass).
  unfold bind at 1, read_globals. simpl.
  unfold bind at 1.
  destruct (time_sleep_total (CHECK_INTERVAL (globals s)) net
              (extend s (Call echo_request :: rest) ls))
    as [Hsleep|[e Hsleep]]; rewrite Hsleep; [|by eexists _, _, _].
  rewrite extend_extend.
  destruct (reconcile_loop_extends ticks net
    (extend s ((Call echo_request :: rest) ++ [Sleep (CHECK_INTERVAL (globals s))]) (ls ++ [])))
    as (r & evs' & ls' & Hloop).
  rewrite Hloop, extend_extend. simpl. by eexists _, _, _.
Qed.

Lemma main_loop_first_pass ticks net s :
  ∃ r rest ls,
    main_loop (S ticks) net s = (r, extend s (Call echo_request :: rest) ls).
Proof.
  unfold main_loop. unfold bind at 1, read_globals. simpl.
  unfold bind at 1. rewrite logger_info_run.
  destruct (reconcile_loop_first_pass ticks net
    (extend s [] [info [Lit "Will check for IP changes every ";
                        Val (JInt (CHECK_INTERVAL (globals s))); Lit " seconds"]]))
    as ([st|e] & rest & ls & Hloop); unfold info in Hloop.
  - erewrite try_except_ok by exact Hloop.
    rewrite extend_extend. simpl. by eexists _, _, _.
  - erewrite try_except_raised by exact Hloop.
    unfold bind. rewrite logger_error_run. unfold ret.
    rewrite !extend_extend. simpl. by eexists _, _, _.
Qed.

(** X3. When no record identifier is configured and discovery at startup
    returns one, [main] rebinds DNS_RECORD_ID to it and enters the loop.
    The run starts with the discovery call and, observed for at least one
    tick, goes on with the echo call of the first pass; it never calls the
    list endpoint again, and every read and update call that follows
    addresses the discovered record.  As long as
    [time.sleep(CHECK_INTERVAL)] returns, the process is still looping
    after as many passes as ticks were observed. *)
Theorem discovered_record_id_is_used net s ticks record_id :
  required_present (globals s) = true →
  py_truthy (DNS_RECORD_ID (globals s)) = false →
  py_truthy (of_env (DOMAIN_NAME (globals s))) = true →
  run_result (get_dns_record_id (of_env (ZONE_ID (globals s)))
                (of_env (DOMAIN_NAME (globals s)))
                (JStr (RECORD_TYPE (globals s)))) net s = Ok record_id →
  py_truthy record_id = true →
  DNS_RECORD_ID (globals (run_state (main ticks) net s)) = record_id ∧
  globals (run_state (main ticks) net s) = globals (set_DNS_RECORD_ID record_id s) ∧
  ∃ rest,
    events_of (main ticks) net s = Call (discovery_request (globals s)) :: rest ∧
    (ticks ≠ 0%nat → ∃ rest', rest = Call echo_request :: rest') ∧
    (sleep_returns s (CHECK_INTERVAL (globals s)) →
     run_result (main ticks) net s = Ok Looping ∧
     List.length (echo_calls rest) = ticks) ∧
    Forall (loop_event (globals (set_DNS_RECORD_ID record_id s))) rest ∧
    list_calls rest = [] ∧
    ∀ r, Call r ∈ rest → targets_record r = true →
         url r = [Lit "https://api.cloudflare.com/client/v4/zones/";
                  Val (of_env (ZONE_ID (globals s)));
                  Lit "/dns_records/"; Val record_id].
Proof.
  intros Hreq Hid Hdom Hfound Htruthy.
  destruct (main_discovers net s ticks Hreq Hid Hdom) as [ls Hmain]. simpl in Hmain.
  unfold run_result in Hfound. rewrite get_dns_record_id_run in Hfound.
  simpl in Hfound. injection Hfound as Hfound.
  fold (discovery_request (globals s)) in Hfound.
  rewrite Hfound, Htruthy in Hmain.
  set (s2 := set_DNS_RECORD_ID record_id
               (extend s [Call (discovery_request (globals s))] ls)) in *.
  destruct (main_loop_events ticks net s2) as (r & evs & ls' & Hloop & Hevs).
  pose proof Hmain as Hmain'. rewrite Hloop in Hmain'.
  unfold s2 in Hevs. rewrite globals_after_discovery in Hevs.
  unfold run_state, run_result. rewrite Hmain'. simpl.
  split; [reflexivity|]. split; [reflexivity|].
  exists evs. split.
  { eapply events_of_trace; [exact Hmain'|]. simpl. by rewrite <- app_assoc. }
  split.
  { intros Hticks. destruct ticks as [|n]; [done|].
    destruct (main_loop_first_pass n net s2) as (r' & rest' & ls'' & Hfirst).
    rewrite Hfirst in Hloop. apply (f_equal snd) in Hloop. cbn [snd] in Hloop.
    apply extend_same_events in Hloop. by exists rest'. }
  split.
  { intros Hsleep.
    destruct (main_loop_keeps_going ticks net s2) as (evs' & ls'' & Hgo & Hcount).
    { by apply sleep_returns_after_discovery, sleep_returns_extend. }
    rewrite Hgo in Hloop.
    pose proof (f_equal fst Hloop) as Hr. cbn [fst] in Hr.
    apply (f_equal snd) in Hloop. cbn [snd] in Hloop.
    apply extend_same_events in Hloop. by subst. }
  split; [exact Hevs|]. split; [by eapply loop_event_no_list|].
  intros r' Hin Htarget. by rewrite (loop_event_record_url _ _ _ Hevs Hin Htarget).
Qed.

Lemma discovered_record_id_is_used_witness :
  DNS_RECORD_ID (globals (run_state (main 2) net_found (start globals_without_id))) =
    JStr "abc123" ∧
  globals (run_state (main 2) net_found (start globals_without_id)) =
    globals (set_DNS_RECORD_ID (JStr "abc123") (start globals_without_id)) ∧
  ∃ rest,
    events_of (main 2) net_found (start globals_without_id) =
      Call (discovery_request globals_without_id) :: rest ∧
    (∃ rest', rest = Call echo_request :: rest') ∧
    (run_result (main 2) net_found (start globals_without_id) = Ok Looping ∧
     List.length (echo_calls rest) = 2%nat) ∧
    Forall (loop_event (globals (set_DNS_RECORD_ID (JStr "abc123") (start globals_without_id))))
           rest ∧
    list_calls rest = [] ∧
    ∀ r, Call r ∈ rest → targets_record r = true →
         url r = [Lit "https://api.cloudflare.com/client/v4/zones/"; Val (JStr "zone1");
                  Lit "/dns_records/"; Val (JStr "abc123")].
Proof.
  destruct (discovered_record_id_is_used net_found (start globals_without_id) 2 (JStr "abc123"))
    as (Hid & Hglobals & rest & Hevents & Hfirst & Hloop & Hrest);
    try reflexivity.
  split; [exact Hid|]. split; [exact Hglobals|].
  exists rest. split; [exact Hevents|].
  split; [by apply Hfirst|].
  split; [|exact Hrest].
  apply Hloop. split; [unfold sleep_limit; simpl; lia|reflexivity].
Defined.

(** When [time.sleep] returns for the configured length, the loop's events
    are one block per tick: a pass, then the sleep. *)
Lemma reconcile_loop_passes ticks net s :
  sleep_returns s (CHECK_INTERVAL (globals s)) →
  ∃ passes ls,
    reconcile_loop ticks net s =
      (Ok Looping,
       extend s (concat (map (λ p, p ++ [Sleep (CHECK_INTERVAL (globals s))]) passes)) ls) ∧
    List.length passes = ticks ∧
    Forall (pass_shape (globals s)) passes.
Proof.
  revert s. induction ticks as [|n IH]; intros s Hsleep.
  - exists [], []. simpl. by rewrite extend_nil.
  - destruct (check_and_update_pass_shape net s) as (p & ls & Hpass & Hshape).
    simpl. rewrite (bind_ok _ _ _ _ _ _ Hpass).
    unfold bind at 1, read_globals. simpl.
    unfold bind at 1.
    rewrite (time_sleep_returns _ net _ (sleep_returns_extend s p ls _ Hsleep)).
    rewrite extend_extend.
    destruct (IH (extend s (p ++ [Sleep (CHECK_INTERVAL (globals s))]) (ls ++ [])))
      as (passes & ls' & Hloop & Hlen & Hshapes); [by apply sleep_returns_extend|].
    rewrite Hloop, extend_extend. simpl.
    exists (p :: passes). eexists. split; [reflexivity|].
    split; [simpl; by rewrite Hlen|]. by apply List.Forall_cons.
Qed.

(** X4. As long as [time.sleep(CHECK_INTERVAL)] returns (the length is
    between 0 and 9223372036 seconds, so that Python accepts it, and the
    platform sleeps when asked), the loop followed for [ticks] iterations
    is still looping and has added exactly [ticks] blocks of events,
    whatever the network answered: each block is one pass (the echo call,
    then possibly the read call, then possibly one update call) followed
    by one sleep of CHECK_INTERVAL seconds. *)
Theorem loop_alternates_pass_and_sleep net s ticks :
  0 ≤ CHECK_INTERVAL (globals s) ≤ 9223372036 →
  (∀ k, (List.length (trace s) ≤ k)%nat →
        clock s k (CHECK_INTERVAL (globals s)) = None) →
  run_result (reconcile_loop ticks) net s = Ok Looping ∧
  ∃ passes,
    List.length passes = ticks ∧
    Forall (pass_shape (globals s)) passes ∧
    events_of (reconcile_loop ticks) net s =
      concat (map (λ p, p ++ [Sleep (CHECK_INTERVAL (globals s))]) passes).
Proof.
  intros Hrange Hclock.
  destruct (reconcile_loop_passes ticks net s (conj Hrange Hclock))
    as (passes & ls & Hloop & Hlen & Hshapes).
  unfold run_result. rewrite (events_of_extend _ _ _ _ _ _ Hloop), Hloop.
  split; [reflexivity|]. by exists passes.
Qed.

Lemma loop_alternates_pass_and_sleep_witness :
  run_result (reconcile_loop 3) net_unchanged (start sample_globals) = Ok Looping ∧
  ∃ passes,
    List.length passes = 3%nat ∧
    Forall (pass_shape sample_globals) passes ∧
    events_of (reconcile_loop 3) net_unchanged (start sample_globals) =
      concat (map (λ p, p ++ [Sleep 300]) passes).
Proof.
  apply (loop_alternates_pass_and_sleep net_unchanged (start sample_globals) 3).
  - simpl. lia.
  - reflexivity.
Defined.

(** ** When a pass writes *)

Lemma read_fails_or_reads (r : Reply) : read_fails r ∨ ∃ v, reads r v.
Proof.
  destruct r as [msg|resp]; [by left|].
  destruct (Z.eq_dec (status_code resp) 200) as [Hst|Hst]; [|left; by left].
  destruct (json_body resp) as [v|] eqn:Hj; [|left; by right].
  right. exists v, resp. done.
Qed.

(** X5. A pass issues an update call only after it has resolved an IP and
    read a record: if the pass makes an update call at all, the echo
    answered 200 with some IP, the read answered 200 with a body that is
    true, holds a content and that content differs from the IP, the update
    is the one call [update_request] builds for that IP, and it is the
    third and last call of the pass. *)
Theorem update_only_after_successful_read net s r :
  r ∈ update_calls (pass_events net s) →
  ∃ ip dns_record cf_ip,
    resolves (echo_reply net s) ip ∧
    reads (read_reply net s) dns_record ∧
    py_truthy dns_record = true ∧
    extract_content dns_record = Ok cf_ip ∧
    str_ne ip cf_ip = true ∧
    r = update_request (globals s) ip ∧
    pass_events net s =
      [Call echo_request; Call (read_request (globals s)); Call r].
Proof.
  intros Hin. unfold pass_events in *.
  destruct (echo_fails_or_resolves (echo_reply net s)) as [H|[ip Hip]].
  { destruct (check_and_update_echo_fails net s H) as [e He].
    rewrite (events_of_extend _ _ _ _ _ _ He) in Hin. by apply elem_of_nil in Hin. }
  destruct (read_fails_or_reads (read_reply net s)) as [Hread|[v Hread]].
  { destruct (check_and_update_read_fails net s ip Hip Hread) as [msg Hrun].
    rewrite (events_of_extend _ _ _ _ _ _ Hrun) in Hin. by apply elem_of_nil in Hin. }
  destruct (py_truthy v) eqn:Ht.
  2:{ pose proof (check_and_update_falsy _ _ _ _ Hip Hread Ht) as Hrun.
      rewrite (events_of_extend _ _ _ _ _ _ Hrun) in Hin. by apply elem_of_nil in Hin. }
  destruct (extract_content v) as [cf_ip|e] eqn:Hcf.
  2:{ pose proof (check_and_update_unusable _ _ _ _ _ Hip Hread Ht Hcf) as Hrun.
      rewrite (events_of_extend _ _ _ _ _ _ Hrun) in Hin. by apply elem_of_nil in Hin. }
  destruct (str_ne ip cf_ip) eqn:Hne.
  2:{ pose proof (check_and_update_same _ _ _ _ _ Hip Hread Ht Hcf Hne) as Hrun.
      rewrite (events_of_extend _ _ _ _ _ _ Hrun) in Hin. by apply elem_of_nil in Hin. }
  pose proof (check_and_update_differs _ _ _ _ _ Hip Hread Ht Hcf Hne) as Hrun.
  simpl in Hrun. rewrite (events_of_extend _ _ _ _ _ _ Hrun) in Hin |- *.
  change (update_calls _) with [update_request (globals s) ip] in Hin.
  apply list_elem_of_singleton in Hin. subst r.
  exists ip, v, cf_ip. done.
Qed.

Lemma update_only_after_successful_read_witness :
  ∃ ip dns_record cf_ip,
    resolves (echo_reply net_changed (start sample_globals)) ip ∧
    reads (read_reply net_changed (start sample_globals)) dns_record ∧
    py_truthy dns_record = true ∧
    extract_content dns_record = Ok cf_ip ∧
    str_ne ip cf_ip = true ∧
    update_request sample_globals "1.2.3.4" = update_request sample_globals ip ∧
    pass_events net_changed (start sample_globals) =
      [Call echo_request; Call (read_request sample_globals);
       Call (update_request sample_globals "1.2.3.4")].
Proof.
  apply (update_only_after_successful_read net_changed (start sample_globals)
           (update_request sample_globals "1.2.3.4")).
  vm_compute. apply list_elem_of_here.
Defined.

(** ** A sleep that is refused *)

Lemma time_sleep_overflow secs net s :
  secs < - sleep_limit ∨ sleep_limit < secs →
  time_sleep secs net s = (Raised OverflowError, s).
Proof.
  intros H. unfold time_sleep.
  destruct (Z.ltb_spec secs (- sleep_limit)) as [H1|H1]; [done|].
  destruct (Z.ltb_spec sleep_limit secs) as [H2|H2]; [done|]. lia.
Qed.

Lemma time_sleep_negative secs net s :
  - sleep_limit ≤ secs < 0 →
  time_sleep secs net s = (Raised ValueError, s).
Proof.
  intros [Hlo Hneg]. unfold time_sleep.
  assert ((secs <? - sleep_limit) = false) as -> by (by apply Z.ltb_ge).
  assert ((sleep_limit <? secs) = false) as ->
    by (apply Z.ltb_ge; unfold sleep_limit in *; lia).
  assert ((secs <? 0) = true) as -> by (by apply Z.ltb_lt).
  reflexivity.
Qed.

Lemma time_sleep_refused secs net s e :
  0 ≤ secs ≤ sleep_limit →
  clock s (List.length (trace s)) secs = Some e →
  time_sleep secs net s = (Raised e, s).
Proof.
  intros [Hlo Hhi] Hclock. unfold time_sleep.
  assert ((secs <? - sleep_limit) = false) as ->
    by (apply Z.ltb_ge; unfold sleep_limit in *; lia).
  assert ((sleep_limit <? secs) = false) as -> by (by apply Z.ltb_ge).
  assert ((secs <? 0) = false) as -> by (by apply Z.ltb_ge).
  simpl. by rewrite Hclock.
Qed.

(** When the first sleep raises, the loop ends after one pass. *)
Lemma reconcile_loop_sleep_raises ticks net s e :
  (∀ p ls, time_sleep (CHECK_INTERVAL (globals s)) net (extend s p ls) =
           (Raised e, extend s p ls)) →
  ∃ p ls,
    reconcile_loop (S ticks) net s = (Raised e, extend s p ls) ∧
    pass_shape (globals s) p.
Proof.
  intros Hsleep.
  destruct (check_and_update_pass_shape net s) as (p & ls & Hpass & Hshape).
  exists p, ls. split; [|done].
  simpl. rewrite (bind_ok _ _ _ _ _ _ Hpass).
  unfold bind at 1, read_globals. simpl.
  unfold bind at 1. by rewrite Hsleep.
Qed.

Lemma main_sleep_raises net s ticks e :
  required_present (globals s) = true →
  py_truthy (DNS_RECORD_ID (globals s)) = true →
  (∀ p ls, time_sleep (CHECK_INTERVAL (globals s)) net (extend s p ls) =
           (Raised e, extend s p ls)) →
  run_result (main (S ticks)) net s = Ok Exited ∧
  pass_shape (globals s) (events_of (main (S ticks)) net s) ∧
  last (logged_by (main (S ticks)) net s) =
    Some (error [Lit "Unexpected error: "; StrExc e]).
Proof.
  intros Hreq Hid Hsleep.
  pose proof (main_with_record_id net s (S ticks) Hreq Hid) as Hmain.
  unfold main_loop in Hmain. unfold bind at 1, read_globals in Hmain. simpl in Hmain.
  unfold bind at 1 in Hmain. rewrite logger_info_run, extend_extend in Hmain.
  destruct (reconcile_loop_sleep_raises ticks net
    (extend s ([] ++ [])
       ([info [Lit "Starting Cloudflare Dynamic DNS updater"]] ++
        [{| level := INFO;
            message := [Lit "Will check for IP changes every ";
                        Val (JInt (CHECK_INTERVAL (globals s))); Lit " seconds"] |}])) e)
    as (p & ls & Hloop & Hshape).
  { intros p ls. rewrite extend_extend. apply Hsleep. }
  erewrite try_except_raised in Hmain by exact Hloop.
  unfold bind in Hmain. rewrite logger_error_run in Hmain. unfold ret in Hmain.
  rewrite !extend_extend in Hmain. simpl in Hmain.
  unfold run_result.
  rewrite (events_of_extend _ _ _ _ _ _ Hmain), (logged_by_extend _ _ _ _ _ _ Hmain), Hmain.
  split; [reflexivity|]. split; [by rewrite app_nil_r|].
  rewrite !app_comm_cons. by rewrite last_snoc.
Qed.

(** X6. When [time.sleep] refuses CHECK_INTERVAL the process does not keep
    running.  Started with its required settings and a record identifier,
    [main] runs one pass, the sleep raises, the error is logged as
    unexpected and [main] returns: the run holds the events of that one
    pass and no sleep, however long it is observed.  The error is
    OverflowError for a length beyond 9223372036 seconds on either side,
    ValueError for a negative length from -9223372036 on, and the
    platform's own error (OSError, as a rule) when the platform refuses a
    length that Python accepts. *)
Theorem refused_sleep_stops_after_one_pass net s ticks e :
  required_present (globals s) = true →
  py_truthy (DNS_RECORD_ID (globals s)) = true →
  ((CHECK_INTERVAL (globals s) < -9223372036 ∨ 9223372036 < CHECK_INTERVAL (globals s)) ∧
   e = OverflowError) ∨
  (-9223372036 ≤ CHECK_INTERVAL (globals s) < 0 ∧ e = ValueError) ∨
  (0 ≤ CHECK_INTERVAL (globals s) ≤ 9223372036 ∧
   ∀ k, (List.length (trace s) ≤ k)%nat →
        clock s k (CHECK_INTERVAL (globals s)) = Some e) →
  run_result (main (S ticks)) net s = Ok Exited ∧
  pass_shape (globals s) (events_of (main (S ticks)) net s) ∧
  last (logged_by (main (S ticks)) net s) =
    Some (error [Lit "Unexpected error: "; StrExc e]).
Proof.
  intros Hreq Hid Hrefused. apply main_sleep_raises; [done|done|].
  intros p ls.
  destruct Hrefused as [[H ->]|[[H ->]|(H & Hclock)]].
  - by apply time_sleep_overflow.
  - by apply time_sleep_negative.
  - apply time_sleep_refused; [done|].
    apply Hclock. simpl. rewrite length_app. lia.
Qed.

Lemma refused_sleep_stops_after_one_pass_witness :
  (run_result (main 5) net_changed (start globals_negative_interval) = Ok Exited ∧
   pass_shape globals_negative_interval
     (events_of (main 5) net_changed (start globals_negative_interval)) ∧
   last (logged_by (main 5) net_changed (start globals_negative_interval)) =
     Some (error [Lit "Unexpected error: "; StrExc ValueError])) ∧
  (run_result (main 5) net_changed (start globals_huge_interval) = Ok Exited ∧
   pass_shape globals_huge_interval
     (events_of (main 5) net_changed (start globals_huge_interval)) ∧
   last (logged_by (main 5) net_changed (start globals_huge_interval)) =
     Some (error [Lit "Unexpected error: "; StrExc OverflowError])) ∧
  (run_result (main 5) net_changed (start_on never_sleeps sample_globals) = Ok Exited ∧
   pass_shape sample_globals
     (events_of (main 5) net_changed (start_on never_sleeps sample_globals)) ∧
   last (logged_by (main 5) net_changed (start_on never_sleeps sample_globals)) =
     Some (error [Lit "Unexpected error: "; StrExc (OSError 22)])).
Proof.
  split; [|split].
  - apply (refused_sleep_stops_after_one_pass net_changed
             (start globals_negative_interval) 4 ValueError); [reflexivity|reflexivity|].
    right. left. split; [simpl; lia|reflexivity].
  - apply (refused_sleep_stops_after_one_pass net_changed
             (start globals_huge_interval) 4 OverflowError); [reflexivity|reflexivity|].
    left. split; [right; simpl; lia|reflexivity].
  - apply (refused_sleep_stops_after_one_pass net_changed
             (start_on never_sleeps sample_globals) 4 (OSError 22));
      [reflexivity|reflexivity|].
    right. right. split; [simpl; lia|reflexivity].
Defined.

(** ** Where the credential goes *)

(** The events of a run that starts with a record identifier. *)
Lemma configured_loop_events net s ticks :
  required_present (globals s) = true →
  py_truthy (DNS_RECORD_ID (globals s)) = true →
  Forall (loop_event (globals s)) (events_of (main ticks) net s).
Proof.
  intros Hreq Hid.
  pose proof (main_with_record_id net s ticks Hreq Hid) as Hmain.
  destruct (main_loop_events ticks net
    (extend s [] [info [Lit "Starting Cloudflare Dynamic DNS updater"]]))
    as (r & evs & ls & Hloop & Hevs).
  rewrite Hloop, extend_extend in Hmain.
  by rewrite (events_of_extend _ _ _ _ _ _ Hmain).
Qed.

(** The events of a run: none, or those of the loop, or the discovery call
    followed by those of the loop on the discovered record. *)
Lemma main_events_cases net s ticks :
  events_of (main ticks) net s = [] ∨
  Forall (loop_event (globals s)) (events_of (main ticks) net s) ∨
  ∃ record_id rest,
    events_of (main ticks) net s = Call (discovery_request (globals s)) :: rest ∧
    Forall (loop_event (globals (set_DNS_RECORD_ID record_id s))) rest.
Proof.
  destruct (required_present (globals s)) eqn:Hreq.
  2:{ left. destruct (main_missing_vars net s ticks Hreq) as [ls H].
      by rewrite (events_of_extend _ _ _ _ _ _ H). }
  destruct (py_truthy (DNS_RECORD_ID (globals s))) eqn:Hid.
  { right. left. by apply configured_loop_events. }
  destruct (py_truthy (of_env (DOMAIN_NAME (globals s)))) eqn:Hdom.
  2:{ left. destruct (main_no_domain net s ticks Hreq Hid Hdom) as [ls H].
      by rewrite (events_of_extend _ _ _ _ _ _ H). }
  right. right.
  destruct (main_discovers net s ticks Hreq Hid Hdom) as [ls Hmain]. simpl in Hmain.
  exists (discovered (discovery_outcome (reply_at net s (discovery_request (globals s))))).
  destruct (py_truthy _) in Hmain.
  - destruct (main_loop_events ticks net
      (set_DNS_RECORD_ID
         (discovered (discovery_outcome (reply_at net s (discovery_request (globals s)))))
         (extend s [Call (discovery_request (globals s))] ls)))
      as (r & evs & ls' & Hloop & Hevs).
    rewrite Hloop in Hmain. rewrite globals_after_discovery in Hevs.
    exists evs. split; [|exact Hevs].
    eapply events_of_trace; [exact Hmain|]. simpl. by rewrite <- app_assoc.
  - exists []. split; [|apply List.Forall_nil].
    eapply events_of_trace; [exact Hmain|]. reflexivity.
Qed.

Lemma loop_event_headers g g' e r :
  loop_event g' e → CF_API_TOKEN g' = CF_API_TOKEN g → ZONE_ID g' = ZONE_ID g →
  e = Call r →
  (method r = GET ∧ url r = ipify_url ∧ headers r = ∅ ∧ params r = ∅ ∧ payload r = None) ∨
  (url r = dns_record_url g' ∧ ZONE_ID g' = ZONE_ID g ∧ headers r = auth_headers g).
Proof.
  intros [->|[->|[[ip ->]| ->]]] Htok Hzone [= <-].
  - by left.
  - right. split; [done|]. split; [done|]. simpl. unfold auth_headers. by rewrite Htok.
  - right. split; [done|]. split; [done|]. simpl. unfold auth_headers. by rewrite Htok.
Qed.

(** X7. The API token goes to the DNS provider only.  In a whole run of
    [main], whatever the configuration and the network, every call is
    either the echo call, a GET on https://api.ipify.org with no headers,
    no parameters and no body, or a call that carries the bearer token and
    the JSON content type and whose URL is the provider's:
    https://api.cloudflare.com/client/v4/zones/{ZONE_ID}/dns_records, or
    that URL followed by /{record id}. *)
Theorem token_goes_to_provider_only net s ticks r :
  Call r ∈ events_of (main ticks) net s →
  (method r = GET ∧
   url r = [Lit "https://api.ipify.org"] ∧
   headers r = ∅ ∧ params r = ∅ ∧ payload r = None) ∨
  ((url r = [Lit "https://api.cloudflare.com/client/v4/zones/";
             Val (of_env (ZONE_ID (globals s))); Lit "/dns_records"] ∨
    ∃ record_id,
      url r = [Lit "https://api.cloudflare.com/client/v4/zones/";
               Val (of_env (ZONE_ID (globals s))); Lit "/dns_records/"; Val record_id]) ∧
   headers r = {[ "Authorization" := [Lit "Bearer "; Val (of_env (CF_API_TOKEN (globals s)))];
                  "Content-Type" := [Lit "application/json"] ]}).
Proof.
  intros Hin.
  assert (∀ g', CF_API_TOKEN g' = CF_API_TOKEN (globals s) →
                ZONE_ID g' = ZONE_ID (globals s) →
                loop_event g' (Call r) →
                (method r = GET ∧ url r = [Lit "https://api.ipify.org"] ∧
                 headers r = ∅ ∧ params r = ∅ ∧ payload r = None) ∨
                ((url r = [Lit "https://api.cloudflare.com/client/v4/zones/";
                           Val (of_env (ZONE_ID (globals s))); Lit "/dns_records"] ∨
                  ∃ record_id,
                    url r = [Lit "https://api.cloudflare.com/client/v4/zones/";
                             Val (of_env (ZONE_ID (globals s))); Lit "/dns_records/";
                             Val record_id]) ∧
                 headers r = auth_headers (globals s))) as Hloop.
  { intros g' Htok Hzone He.
    destruct (loop_event_headers (globals s) g' (Call r) r He Htok Hzone eq_refl)
      as [H|(Hurl & _ & Hheaders)]; [by left|].
    right. split; [|done]. right. exists (DNS_RECORD_ID g').
    rewrite Hurl. unfold dns_record_url. by rewrite Hzone. }
  destruct (main_events_cases net s ticks) as [H|[H|(rid & rest & H & Hrest)]].
  - rewrite H in Hin. by apply elem_of_nil in Hin.
  - rewrite Forall_forall in H. by apply (Hloop (globals s)), H.
  - rewrite H in Hin. apply elem_of_cons in Hin as [[= ->]|Hin].
    + right. split; [by left|done].
    + rewrite Forall_forall in Hrest.
      by apply (Hloop (globals (set_DNS_RECORD_ID rid s))), Hrest.
Qed.

Lemma token_goes_to_provider_only_witness :
  (method (read_request sample_globals) = GET ∧
   url (read_request sample_globals) = [Lit "https://api.ipify.org"] ∧
   headers (read_request sample_globals) = ∅ ∧
   params (read_request sample_globals) = ∅ ∧
   payload (read_request sample_globals) = None) ∨
  ((url (read_request sample_globals) =
      [Lit "https://api.cloudflare.com/client/v4/zones/"; Val (JStr "zone1");
       Lit "/dns_records"] ∨
    ∃ record_id,
      url (read_request sample_globals) =
        [Lit "https://api.cloudflare.com/client/v4/zones/"; Val (JStr "zone1");
         Lit "/dns_records/"; Val record_id]) ∧
   headers (read_request sample_globals) =
     {[ "Authorization" := [Lit "Bearer "; Val (JStr "tok")];
        "Content-Type" := [Lit "application/json"] ]}).
Proof.
  apply (token_goes_to_provider_only net_changed (start sample_globals) 1).
  vm_compute. apply list_elem_of_further, list_elem_of_here.
Defined.

(** ** The three calls, whatever the answer *)

(** X8. Record discovery never raises and never invents an identifier.
    Whatever the network answers, it returns after exactly one call and one
    log line, globals untouched; and the value it returns is either None,
    logged at ERROR level, or the "id" of the first element of the listed
    result of a 200 answer whose "success" is true, logged at INFO level.
    So a body of another shape (a result that is no list, a first element
    without "id") gives None, not an exception. *)
Theorem discovery_returns_first_id_or_none net s zone_id domain_name record_type :
  let req := list_request (globals s) zone_id domain_name record_type in
  ∃ returned line,
    get_dns_record_id zone_id domain_name record_type net s =
      (Ok returned, extend s [Call req] [line]) ∧
    ((returned = JNull ∧ level line = ERROR) ∨
     (level line = INFO ∧
      ∃ resp body ok record rest,
        reply_at net s req = Answer resp ∧ status_code resp = 200 ∧
        json_body resp = Some (JObj body) ∧
        body !! "success" = Some ok ∧ py_truthy ok = true ∧
        body !! "result" = Some (JList (JObj record :: rest)) ∧
        record !! "id" = Some returned)).
Proof.
  simpl. eexists _, _. split; [apply get_dns_record_id_run|].
  unfold discovery_outcome.
  destruct (reply_at net s _) as [msg|resp] eqn:Hreply; [by left|].
  destruct (status_code resp =? 200) eqn:Hst; [|by left].
  apply Z.eqb_eq in Hst.
  destruct (json_body resp) as [v|] eqn:Hj; [|by left].
  destruct v as [| | | | | |body]; try (by left).
  destruct (body !! "success") as [ok|] eqn:Hok; simpl; [|by left].
  destruct (py_truthy ok) eqn:Htrue; simpl; [|by left].
  destruct (body !! "result") as [items|] eqn:Hitems; simpl; [|by left].
  destruct (py_truthy items) eqn:Hnonempty; simpl; [|by left].
  destruct items as [| | | | |l|]; try (by left).
  destruct l as [|first rest]; [by left|].
  destruct first as [| | | | | |record]; try (by left).
  simpl. destruct (record !! "id") as [record_id|] eqn:Hid; [|by left].
  right. split; [done|]. exists resp, body, ok, record, rest. done.
Qed.

(** X9. Reading the record never raises.  Whatever the network answers,
    [get_cloudflare_dns_record] makes exactly one call, the GET on the
    record URL with the bearer headers; it returns the parsed body and logs
    nothing when the answer is 200 with a JSON body, and otherwise returns
    None and logs exactly one ERROR line. *)
Theorem read_returns_body_or_none net s :
  let reply := reply_at net s (read_request (globals s)) in
  events_of get_cloudflare_dns_record net s = [Call (read_request (globals s))] ∧
  ((∃ v, reads reply v ∧
         run_result get_cloudflare_dns_record net s = Ok v ∧
         logged_by get_cloudflare_dns_record net s = []) ∨
   (read_fails reply ∧
    run_result get_cloudflare_dns_record net s = Ok JNull ∧
    ∃ msg, logged_by get_cloudflare_dns_record net s = [error msg])).
Proof.
  simpl. unfold run_result.
  destruct (read_fails_or_reads (reply_at net s (read_request (globals s)))) as [H|[v H]].
  - destruct (get_cloudflare_dns_record_fails net s H) as [msg Hrun].
    rewrite (events_of_extend _ _ _ _ _ _ Hrun), (logged_by_extend _ _ _ _ _ _ Hrun), Hrun.
    split; [done|]. right. split; [done|]. split; [done|]. by exists msg.
  - pose proof (get_cloudflare_dns_record_ok net s v H) as Hrun.
    rewrite (events_of_extend _ _ _ _ _ _ Hrun), (logged_by_extend _ _ _ _ _ _ Hrun), Hrun.
    split; [done|]. left. by exists v.
Qed.

(** X10. The IP resolver makes exactly one call, the echo call.  On 200 it
    returns the response text and logs nothing.  Otherwise it logs one
    ERROR line and raises to its caller: a transport error is re-raised as
    it came, and a status other than 200 becomes an exception whose message
    carries that status. *)
Theorem resolver_returns_text_or_reraises net s :
  let reply := echo_reply net s in
  events_of get_current_ip net s = [Call echo_request] ∧
  (∀ resp,
     reply = Answer resp → status_code resp = 200 →
     run_result get_current_ip net s = Ok (text resp) ∧
     logged_by get_current_ip net s = []) ∧
  (∀ msg,
     reply = ConnectionFailed msg →
     run_result get_current_ip net s = Raised (RequestException msg) ∧
     logged_by get_current_ip net s =
       [error [Lit "Error getting current IP: "; StrExc (RequestException msg)]]) ∧
  (∀ resp,
     reply = Answer resp → status_code resp ≠ 200 →
     run_result get_current_ip net s =
       Raised (Exception_ [Lit "Failed to get IP: "; Val (JInt (status_code resp))]) ∧
     logged_by get_current_ip net s =
       [error [Lit "Error getting current IP: ";
               StrExc (Exception_ [Lit "Failed to get IP: ";
                                   Val (JInt (status_code resp))])]]).
Proof.
  simpl.
  assert (∀ r ls, get_current_ip net s = (r, extend s [Call echo_request] ls) →
                  events_of get_current_ip net s = [Call echo_request] ∧
                  run_result get_current_ip net s = r ∧
                  logged_by get_current_ip net s = ls) as Hobs.
  { intros r ls Hrun. unfold run_result.
    by rewrite (events_of_extend _ _ _ _ _ _ Hrun), (logged_by_extend _ _ _ _ _ _ Hrun), Hrun. }
  assert (∀ resp, echo_reply net s = Answer resp → status_code resp ≠ 200 →
            get_current_ip net s =
              (Raised (Exception_ [Lit "Failed to get IP: "; Val (JInt (status_code resp))]),
               extend s [Call echo_request]
                 [error [Lit "Error getting current IP: ";
                         StrExc (Exception_ [Lit "Failed to get IP: ";
                                             Val (JInt (status_code resp))])]])) as Hstatus.
  { intros resp Hr Hst. unfold echo_reply in Hr.
    unfold get_current_ip, requests_get. fold echo_request.
    erewrite try_except_raised.
    2:{ rewrite (bind_ok _ _ _ _ _ _ (send_answer _ _ _ _ Hr)).
        apply Z.eqb_neq in Hst. rewrite Hst. reflexivity. }
    unfold bind. rewrite logger_error_run. unfold raise. by rewrite extend_extend. }
  assert (∀ msg, echo_reply net s = ConnectionFailed msg →
            get_current_ip net s =
              (Raised (RequestException msg),
               extend s [Call echo_request]
                 [error [Lit "Error getting current IP: ";
                         StrExc (RequestException msg)]])) as Hconn.
  { intros msg Hr. unfold echo_reply in Hr.
    unfold get_current_ip, requests_get. fold echo_request.
    erewrite try_except_raised by (apply bind_raised, send_failed, Hr).
    unfold bind. rewrite logger_error_run. unfold raise. by rewrite extend_extend. }
  split.
  { destruct (echo_reply net s) as [msg|resp] eqn:Hr.
    - by apply (Hobs _ _ (Hconn msg eq_refl)).
    - destruct (Z.eq_dec (status_code resp) 200) as [Hst|Hst].
      + assert (resolves (echo_reply net s) (text resp)) as Hip by (by exists resp).
        by apply (Hobs _ _ (get_current_ip_ok net s _ Hip)).
      + by apply (Hobs _ _ (Hstatus resp eq_refl Hst)). }
  split; [|split].
  - intros resp Hr Hst.
    assert (resolves (echo_reply net s) (text resp)) as Hip by (by exists resp).
    by apply (Hobs _ _ (get_current_ip_ok net s _ Hip)).
  - intros msg Hr. by apply (Hobs _ _ (Hconn msg Hr)).
  - intros resp Hr Hst. by apply (Hobs _ _ (Hstatus resp Hr Hst)).
Qed.

Lemma resolver_returns_text_or_reraises_witness :
  (run_result get_current_ip net_changed (start sample_globals) = Ok "1.2.3.4" ∧
   logged_by get_current_ip net_changed (start sample_globals) = []) ∧
  (run_result get_current_ip net_dead (start sample_globals) =
     Raised (RequestException "unreachable") ∧
   logged_by get_current_ip net_dead (start sample_globals) =
     [error [Lit "Error getting current IP: "; StrExc (RequestException "unreachable")]]) ∧
  (run_result get_current_ip net_echo_down (start sample_globals) =
     Raised (Exception_ [Lit "Failed to get IP: "; Val (JInt 503)]) ∧
   logged_by get_current_ip net_echo_down (start sample_globals) =
     [error [Lit "Error getting current IP: ";
             StrExc (Exception_ [Lit "Failed to get IP: "; Val (JInt 503)])]]).
Proof.
  split; [|split].
  - destruct (resolver_returns_text_or_reraises net_changed (start sample_globals))
      as (_ & Hok & _).
    apply (Hok (text_response 200 "1.2.3.4")); reflexivity.
  - destruct (resolver_returns_text_or_reraises net_dead (start sample_globals))
      as (_ & _ & Hconn & _).
    apply (Hconn "unreachable"). reflexivity.
  - destruct (resolver_returns_text_or_reraises net_echo_down (start sample_globals))
      as (_ & _ & _ & Hstatus).
    apply (Hstatus (text_response 503 "Service Unavailable")); [reflexivity|].
    vm_compute. discriminate.
Defined.

(** X11. The update never raises and its log agrees with its result.
    Whatever the network answers, also a 200 whose body is no JSON or no
    object, [update_cloudflare_dns_record] makes exactly one call, the PUT
    built from the configuration, and logs exactly one line: an INFO line
    when it returns True and an ERROR line when it returns False. *)
Theorem update_logs_what_it_returns net s ip :
  ∃ returned line,
    update_cloudflare_dns_record ip net s =
      (Ok returned, extend s [Call (update_request (globals s) ip)] [line]) ∧
    level line = (if returned then INFO else ERROR) ∧
    (∀ resp,
       reply_at net s (update_request (globals s) ip) = Answer resp →
       (json_body resp = None ∨ ∀ body, json_body resp ≠ Some (JObj body)) →
       returned = false).
Proof.
  eexists _, _. split; [apply update_cloudflare_dns_record_run|].
  unfold update_outcome.
  destruct (reply_at net s _) as [msg|resp] eqn:Hreply.
  { split; [done|]. intros resp [=]. }
  destruct (status_code resp =? 200) eqn:Hst.
  2:{ split; [done|]. done. }
  destruct (json_body resp) as [v|] eqn:Hj.
  2:{ split; [done|]. done. }
  destruct v as [| | | | | |body]; try (split; [done|done]).
  destruct (py_truthy (default JNull (body !! "success"))); simpl.
  - split; [done|]. intros resp' [= <-] [H|H]; [congruence|].
    by destruct (H body).
  - split; [done|]. done.
Qed.

Lemma update_logs_what_it_returns_witness :
  ∃ returned line,
    update_cloudflare_dns_record "1.2.3.4"
      (net_updating (Answer (text_response 200 "<html>"))) (start sample_globals) =
      (Ok returned,
       extend (start sample_globals) [Call (update_request sample_globals "1.2.3.4")] [line]) ∧
    level line = (if returned then INFO else ERROR) ∧
    returned = false.
Proof.
  destruct (update_logs_what_it_returns
              (net_updating (Answer (text_response 200 "<html>")))
              (start sample_globals) "1.2.3.4") as (returned & line & Hrun & Hlevel & Hbody).
  exists returned, line. split; [exact Hrun|]. split; [exact Hlevel|].
  apply (Hbody (text_response 200 "<html>")); [reflexivity|].
  left. reflexivity.
Defined.

(** ** Records the pass cannot use *)

(** X12. A read that answers 200 with an empty or otherwise false body (an
    empty object or list, null, zero, an empty string, false) counts as a
    failed read: the pass logs that it could not retrieve the record and
    ends after the read, with no update call. *)
Theorem false_body_counts_as_failed_read net s ip dns_record :
  resolves (echo_reply net s) ip →
  reads (read_reply net s) dns_record →
  py_truthy dns_record = false →
  pass_events net s = [Call echo_request; Call (read_request (globals s))] ∧
  update_calls (pass_events net s) = [] ∧
  logged_by check_and_update net s =
    [info [Lit "Current public IP: "; Val (JStr ip)];
     error [Lit "Failed to retrieve DNS record. Skipping update."]].
Proof.
  intros Hip Hread Ht.
  pose proof (check_and_update_falsy _ _ _ _ Hip Hread Ht) as Hrun.
  unfold pass_events.
  by rewrite (events_of_extend _ _ _ _ _ _ Hrun), (logged_by_extend _ _ _ _ _ _ Hrun).
Qed.

Lemma false_body_counts_as_failed_read_witness :
  pass_events net_empty_body (start sample_globals) =
    [Call echo_request; Call (read_request sample_globals)] ∧
  update_calls (pass_events net_empty_body (start sample_globals)) = [] ∧
  logged_by check_and_update net_empty_body (start sample_globals) =
    [info [Lit "Current public IP: "; Val (JStr "1.2.3.4")];
     error [Lit "Failed to retrieve DNS record. Skipping update."]].
Proof.
  apply (false_body_counts_as_failed_read net_empty_body (start sample_globals)
           "1.2.3.4" (JObj ∅)).
  - eexists. split; [reflexivity|]. split; reflexivity.
  - eexists. split; [reflexivity|]. split; reflexivity.
  - reflexivity.
Defined.

Lemma extract_content_raises dns_record :
  py_truthy dns_record = true →
  ((∀ m, dns_record ≠ JObj m) ∨
   ∃ m result, dns_record = JObj m ∧ m !! "result" = Some result ∧
               ∀ record, result ≠ JObj record) →
  extract_content dns_record = Raised AttributeError.
Proof.
  intros Ht [H|(m & result & -> & Hres & Hnot)].
  - destruct dns_record; try reflexivity. by destruct (H m).
  - unfold extract_content. simpl. rewrite Hres.
    destruct result; try reflexivity. by destruct (Hnot m0).
Qed.

(** X13. A read that answers 200 with a true body from which no content
    can be taken, because the body is not an object or because its
    "result" is present and is not an object (null, a list, a string), does
    not crash the pass and writes nothing: the AttributeError is caught by
    [check_and_update], logged as an error, and the pass ends after the
    read with no update call. *)
Theorem unusable_body_ends_pass_without_update net s ip dns_record :
  resolves (echo_reply net s) ip →
  reads (read_reply net s) dns_record →
  py_truthy dns_record = true →
  ((∀ m, dns_record ≠ JObj m) ∨
   ∃ m result, dns_record = JObj m ∧ m !! "result" = Some result ∧
               ∀ record, result ≠ JObj record) →
  run_result check_and_update net s = Ok tt ∧
  pass_events net s = [Call echo_request; Call (read_request (globals s))] ∧
  update_calls (pass_events net s) = [] ∧
  logged_by check_and_update net s =
    [info [Lit "Current public IP: "; Val (JStr ip)];
     error [Lit "Error in check_and_update: "; StrExc AttributeError]].
Proof.
  intros Hip Hread Ht Hshape.
  pose proof (check_and_update_unusable _ _ _ _ _ Hip Hread Ht
                (extract_content_raises _ Ht Hshape)) as Hrun.
  unfold pass_events, run_result.
  by rewrite (events_of_extend _ _ _ _ _ _ Hrun), (logged_by_extend _ _ _ _ _ _ Hrun), Hrun.
Qed.

Lemma unusable_body_ends_pass_without_update_witness :
  run_result check_and_update net_read_list (start sample_globals) = Ok tt ∧
  pass_events net_read_list (start sample_globals) =
    [Call echo_request; Call (read_request sample_globals)] ∧
  update_calls (pass_events net_read_list (start sample_globals)) = [] ∧
  logged_by check_and_update net_read_list (start sample_globals) =
    [info [Lit "Current public IP: "; Val (JStr "1.2.3.4")];
     error [Lit "Error in check_and_update: "; StrExc AttributeError]].
Proof.
  apply (unusable_body_ends_pass_without_update net_read_list (start sample_globals)
           "1.2.3.4" (JList [JStr "unexpected"])).
  - eexists. split; [reflexivity|]. split; reflexivity.
  - eexists. split; [reflexivity|]. split; reflexivity.
  - reflexivity.
  - left. intros m. discriminate.
Defined.

(** ** The PROXIED setting *)

Lemma ascii_lower_t c : ascii_lower c = "t"%char → c = "t"%char ∨ c = "T"%char.
Proof.
  destruct c as [[] [] [] [] [] [] [] []]; vm_compute; intros H;
    try discriminate; auto.
Qed.

Lemma ascii_lower_r c : ascii_lower c = "r"%char → c = "r"%char ∨ c = "R"%char.
Proof.
  destruct c as [[] [] [] [] [] [] [] []]; vm_compute; intros H;
    try discriminate; auto.
Qed.

Lemma ascii_lower_u c : ascii_lower c = "u"%char → c = "u"%char ∨ c = "U"%char.
Proof.
  destruct c as [[] [] [] [] [] [] [] []]; vm_compute; intros H;
    try discriminate; auto.
Qed.

Lemma ascii_lower_e c : ascii_lower c = "e"%char → c = "e"%char ∨ c = "E"%char.
Proof.
  destruct c as [[] [] [] [] [] [] [] []]; vm_compute; intros H;
    try discriminate; auto.
Qed.

(** X14. The proxied flag is on exactly when PROXIED is set to the word
    "true" in any mix of upper and lower case.  Unset it is off, and so it
    is for every other value: "1", "yes", "on", " true". *)
Theorem proxied_only_for_the_word_true env :
  PROXIED_of_env env = true ↔
  ∃ c1 c2 c3 c4,
    env "PROXIED" = Some (String c1 (String c2 (String c3 (String c4 "")))) ∧
    (c1 = "t"%char ∨ c1 = "T"%char) ∧ (c2 = "r"%char ∨ c2 = "R"%char) ∧
    (c3 = "u"%char ∨ c3 = "U"%char) ∧ (c4 = "e"%char ∨ c4 = "E"%char).
Proof.
  unfold PROXIED_of_env. rewrite String.eqb_eq. split.
  - destruct (env "PROXIED") as [v|]; simpl; [|discriminate].
    destruct v as [|c1 [|c2 [|c3 [|c4 [|c5 v]]]]]; simpl; try discriminate.
    intros [= H1 H2 H3 H4].
    exists c1, c2, c3, c4. split; [done|].
    split; [by apply ascii_lower_t|]. split; [by apply ascii_lower_r|].
    split; [by apply ascii_lower_u|by apply ascii_lower_e].
  - intros (c1 & c2 & c3 & c4 & -> & H1 & H2 & H3 & H4). simpl.
    destruct H1 as [->| ->], H2 as [->| ->], H3 as [->| ->], H4 as [->| ->];
      reflexivity.
Qed.

Example proxied_mixed_case : PROXIED_of_env env_proxied = true.
Proof. reflexivity. Qed.

Example proxied_unset : PROXIED_of_env (λ _, None) = false.
Proof. reflexivity. Qed.

Example proxied_one : PROXIED_of_env (λ _, Some "1") = false.
Proof. reflexivity. Qed.

(** ** The last line of a pass *)

(** X15. Every pass ends its log with a verdict, whatever the network
    answered: that the address is unchanged, that the record was updated,
    that the update failed, that the record could not be retrieved, or the
    error the pass caught.  The first two are INFO lines, the other three
    ERROR lines. *)
Theorem pass_ends_with_a_verdict net s :
  ∃ verdict,
    last (logged_by check_and_update net s) = Some verdict ∧
    (verdict = info [Lit "IP address unchanged. No update needed."] ∨
     verdict = info [Lit "DNS record updated successfully"] ∨
     verdict = error [Lit "Failed to update DNS record"] ∨
     verdict = error [Lit "Failed to retrieve DNS record. Skipping update."] ∨
     ∃ e, verdict = error [Lit "Error in check_and_update: "; StrExc e]).
Proof.
  destruct (echo_fails_or_resolves (echo_reply net s)) as [H|[ip Hip]].
  { destruct (check_and_update_echo_fails net s H) as [e Hrun].
    rewrite (logged_by_extend _ _ _ _ _ _ Hrun).
    eexists. split; [reflexivity|]. do 4 right. by exists e. }
  destruct (read_fails_or_reads (read_reply net s)) as [Hread|[v Hread]].
  { destruct (check_and_update_read_fails net s ip Hip Hread) as [msg Hrun].
    rewrite (logged_by_extend _ _ _ _ _ _ Hrun).
    eexists. split; [reflexivity|]. do 3 right. by left. }
  destruct (py_truthy v) eqn:Ht.
  2:{ pose proof (check_and_update_falsy _ _ _ _ Hip Hread Ht) as Hrun.
      rewrite (logged_by_extend _ _ _ _ _ _ Hrun).
      eexists. split; [reflexivity|]. do 3 right. by left. }
  destruct (extract_content v) as [cf_ip|e] eqn:Hcf.
  2:{ pose proof (check_and_update_unusable _ _ _ _ _ Hip Hread Ht Hcf) as Hrun.
      rewrite (logged_by_extend _ _ _ _ _ _ Hrun).
      eexists. split; [reflexivity|]. do 4 right. by exists e. }
  destruct (str_ne ip cf_ip) eqn:Hne.
  2:{ pose proof (check_and_update_same _ _ _ _ _ Hip Hread Ht Hcf Hne) as Hrun.
      rewrite (logged_by_extend _ _ _ _ _ _ Hrun).
      eexists. split; [reflexivity|]. by left. }
  pose proof (check_and_update_differs _ _ _ _ _ Hip Hread Ht Hcf Hne) as Hrun.
  simpl in Hrun. rewrite (logged_by_extend _ _ _ _ _ _ Hrun).
  destruct (accepted _).
  - eexists. split; [reflexivity|]. right. by left.
  - eexists. split; [reflexivity|]. do 2 right. by left.
Qed.

(** X16. When a pass finds the addresses different and calls the update,
    its verdict follows the provider's answer: the pass logs that the
    record was updated exactly when the update call was answered 200 with
    an object whose "success" is true, and logs that the update failed in
    every other case. *)
Theorem update_verdict_follows_the_answer net s ip dns_record cf_ip :
  resolves (echo_reply net s) ip →
  reads (read_reply net s) dns_record →
  py_truthy dns_record = true →
  extract_content dns_record = Ok cf_ip →
  str_ne ip cf_ip = true →
  let accepted_by_provider :=
    ∃ resp body,
      update_reply net s ip = Answer resp ∧ status_code resp = 200 ∧
      json_body resp = Some (JObj body) ∧
      py_truthy (default JNull (body !! "success")) = true in
  (accepted_by_provider →
   last (logged_by check_and_update net s) =
     Some (info [Lit "DNS record updated successfully"])) ∧
  (¬ accepted_by_provider →
   last (logged_by check_and_update net s) =
     Some (error [Lit "Failed to update DNS record"])).
Proof.
  intros Hip Hread Ht Hcf Hne. simpl.
  pose proof (check_and_update_differs _ _ _ _ _ Hip Hread Ht Hcf Hne) as Hrun.
  simpl in Hrun. rewrite (logged_by_extend _ _ _ _ _ _ Hrun).
  unfold update_outcome. split.
  - intros (resp & body & -> & Hst & Hj & Hok). rewrite Hst, Hj. simpl. by rewrite Hok.
  - intros Hnot.
    destruct (update_reply net s ip) as [msg|resp]; [done|].
    destruct (status_code resp =? 200) eqn:Hst; [|done]. apply Z.eqb_eq in Hst.
    destruct (json_body resp) as [v|] eqn:Hj; [|done].
    destruct v as [| | | | | |body]; try done.
    destruct (py_truthy (default JNull (body !! "success"))) eqn:Hok; [|done].
    destruct Hnot. by exists resp, body.
Qed.

Lemma update_verdict_follows_the_answer_witness :
  last (logged_by check_and_update net_changed (start sample_globals)) =
    Some (info [Lit "DNS record updated successfully"]) ∧
  last (logged_by check_and_update net_update_rejected (start sample_globals)) =
    Some (error [Lit "Failed to update DNS record"]).
Proof.
  split.
  - destruct (update_verdict_follows_the_answer net_changed (start sample_globals)
                "1.2.3.4" (record_body (JStr "1.2.3.3")) (JStr "1.2.3.3")) as [Hyes _].
    + eexists. split; [reflexivity|]. split; reflexivity.
    + eexists. split; [reflexivity|]. split; reflexivity.
    + reflexivity.
    + reflexivity.
    + reflexivity.
    + apply Hyes. exists (json_response 200 ok_body), {[ "success" := JBool true ]}.
      repeat split.
  - destruct (update_verdict_follows_the_answer net_update_rejected (start sample_globals)
                "1.2.3.4" (record_body (JStr "1.2.3.3")) (JStr "1.2.3.3")) as [_ Hno].
    + eexists. split; [reflexivity|]. split; reflexivity.
    + eexists. split; [reflexivity|]. split; reflexivity.
    + reflexivity.
    + reflexivity.
    + reflexivity.
    + apply Hno. intros (resp & body & Hr & _ & Hj & Hok).
      vm_compute in Hr. injection Hr as <-. 
      vm_compute in Hj. injection Hj as <-. vm_compute in Hok. discriminate.
Defined.
